(** * Layout arithmetic of the image-generation templates

    A shallow embedding of [flowchart_template.py] and [mindmap_template.py]
    (package [nine1bot/skills/image-generation-skill/scripts]).

    Conventions of the embedding:
    - Python floats are idealised as the real numbers [R]; rounding is not
      modelled.  Integer indices are [Z], lengths and loop counters [nat].
    - The matplotlib axes object [ax] is a list of artists, threaded through
      the drawing functions (each [add_patch] / [text] / [plot] appends one).
    - Python exceptions are the [Raise] branch of [result]. *)

From Stdlib Require Import Reals Lra Lia ZArith List String Bool.
Import ListNotations.

Local Open Scope R_scope.

(** ** Python prelude *)

Module Py.

Inductive exn : Set :=
| IndexError
| ZeroDivisionError.

Inductive result (A : Type) : Type :=
| Ok (a : A)
| Raise (e : exn).

Arguments Ok {A} a.
Arguments Raise {A} e.

Definition bind {A B : Type} (c : result A) (k : A -> result B) : result B :=
  match c with
  | Ok a => k a
  | Raise e => Raise e
  end.

(** [l[i]] on a Python list: a negative index counts from the end, anything
    outside [-len .. len-1] raises [IndexError]. *)
Definition getitem {A : Type} (l : list A) (i : Z) : result A :=
  let n := Z.of_nat (List.length l) in
  let j := if (i <? 0)%Z then (i + n)%Z else i in
  if ((j <? 0) || (n <=? j))%Z then Raise IndexError
  else match nth_error l (Z.to_nat j) with
       | Some a => Ok a
       | None => Raise IndexError
       end.

(** [len(l)] as a Python integer. *)
Definition len {A : Type} (l : list A) : Z := Z.of_nat (List.length l).

(** [a / b] on Python integers (true division): raises on a zero divisor. *)
Definition int_truediv (a b : Z) : result R :=
  if (b =? 0)%Z then Raise ZeroDivisionError else Ok (IZR a / IZR b).

(** [c or d] for an optional string argument: [None] and the empty string
    are falsy. *)
Definition or_default (c : option string) (d : string) : string :=
  match c with
  | Some s => if String.eqb s "" then d else s
  | None => d
  end.

(** [np.radians]. *)
Definition radians (deg : R) : R := deg * PI / 180.

End Py.

Import Py.

Notation "x <- c ;; k" := (bind c (fun x => k))
  (at level 61, c at next level, right associativity).

Definition Point : Type := R * R.

(** ** flowchart_template.py *)

Module Flowchart.

(** The artists the script adds to the axes. *)
Inductive Artist : Type :=
| Ellipse (xy : Point) (width height : R) (facecolor : string)
| FancyBboxPatch (xy : Point) (width height : R) (boxstyle facecolor : string)
| Polygon (vertices : list Point) (facecolor : string)
| FancyArrowPatch (posA posB : Point) (connectionstyle : string)
| Text (x y : R) (s : string).

Definition Axes : Type := list Artist.

(** The dictionary every shape function returns. *)
Record NodeAnchor : Type := mkAnchor {
  center : Point;
  top : Point;
  bottom : Point;
  left : Point;
  right : Point
}.

Definition COLORS_start_end : string := "#2ECC71".
Definition COLORS_process : string := "#3498DB".
Definition COLORS_decision : string := "#F39C12".
Definition COLORS_io : string := "#9B59B6".

(** [draw_oval(ax, x, y, text, width=2.5, height=1.0, color=None)] *)
Definition draw_oval (ax : Axes) (x y : R) (text : string)
    (width height : R) (color : option string) : Axes * NodeAnchor :=
  let color := or_default color COLORS_start_end in
  let ax := ax ++ [Ellipse (x, y) width height color] in
  let ax := ax ++ [Text x y text] in
  (ax, {| center := (x, y); top := (x, y + height / 2);
          bottom := (x, y - height / 2); left := (x - width / 2, y);
          right := (x + width / 2, y) |}).

(** [draw_rect(ax, x, y, text, width=3.0, height=1.2, color=None)] *)
Definition draw_rect (ax : Axes) (x y : R) (text : string)
    (width height : R) (color : option string) : Axes * NodeAnchor :=
  let color := or_default color COLORS_process in
  let ax := ax ++ [FancyBboxPatch (x - width / 2, y - height / 2) width height
                     "round,pad=0.05,rounding_size=0.15" color] in
  let ax := ax ++ [Text x y text] in
  (ax, {| center := (x, y); top := (x, y + height / 2);
          bottom := (x, y - height / 2); left := (x - width / 2, y);
          right := (x + width / 2, y) |}).

(** [draw_diamond(ax, x, y, text, size=1.8, color=None)] *)
Definition draw_diamond (ax : Axes) (x y : R) (text : string)
    (size : R) (color : option string) : Axes * NodeAnchor :=
  let color := or_default color COLORS_decision in
  let half := size / 2 in
  let vertices := [(x, y + half); (x + half, y); (x, y - half); (x - half, y)] in
  let ax := ax ++ [Polygon vertices color] in
  let ax := ax ++ [Text x y text] in
  (ax, {| center := (x, y); top := (x, y + half);
          bottom := (x, y - half); left := (x - half, y);
          right := (x + half, y) |}).

(** [draw_parallelogram(ax, x, y, text, width=3.0, height=1.0, skew=0.3,
    color=None)] *)
Definition draw_parallelogram (ax : Axes) (x y : R) (text : string)
    (width height skew : R) (color : option string) : Axes * NodeAnchor :=
  let color := or_default color COLORS_io in
  let offset := width * skew in
  let vertices := [(x - width / 2 + offset, y + height / 2);
                   (x + width / 2 + offset, y + height / 2);
                   (x + width / 2 - offset, y - height / 2);
                   (x - width / 2 - offset, y - height / 2)] in
  let ax := ax ++ [Polygon vertices color] in
  let ax := ax ++ [Text x y text] in
  (ax, {| center := (x, y); top := (x, y + height / 2);
          bottom := (x, y - height / 2); left := (x - width / 2, y);
          right := (x + width / 2, y) |}).

(** One call [draw_arrow(ax, start, end, label='', curved=False)]. *)
Record ArrowCall : Type := mkArrow {
  arrow_start : Point;
  arrow_end : Point;
  arrow_label : string;
  arrow_curved : bool
}.

Definition draw_arrow (ax : Axes) (a : ArrowCall) : Axes :=
  let connectionstyle :=
    if arrow_curved a then "arc3,rad=0.2"%string else "arc3,rad=0"%string in
  let ax := ax ++ [FancyArrowPatch (arrow_start a) (arrow_end a) connectionstyle] in
  if String.eqb (arrow_label a) "" then ax
  else
    let mid_x := (fst (arrow_start a) + fst (arrow_end a)) / 2 in
    let mid_y := (snd (arrow_start a) + snd (arrow_end a)) / 2 in
    ax ++ [Text (mid_x + 0.2) mid_y (arrow_label a)].

(** A step dictionary.  [step.get(k)] is [None] for a missing key, so the
    optional keys are options; ['type'] and ['text'] are subscripted and have
    to be present. *)
Record Step : Type := mkStep {
  type : string;
  text : string;
  next : option Z;
  yes_to : option Z;
  no_to : option Z;
  branch : option string
}.

(** The step types the docstring of [create_flowchart] lists. *)
Definition documented_types : list string :=
  ["start"; "process"; "decision"; "io"; "end"]%string.

(** [step.get('branch') == v] *)
Definition branch_is (step : Step) (v : string) : bool :=
  match branch step with
  | Some b => String.eqb b v
  | None => false
  end.

(** [s in [a, b, ...]] *)
Definition str_in (s : string) (l : list string) : bool :=
  existsb (String.eqb s) l.

(** The [y] of iteration [i] of the placement loop. *)
Definition node_y (height y_spacing : R) (i : nat) : R :=
  height - 1 - (INR i + 1) * y_spacing.

(** The [x] of a step: the centre, moved for the two branch markers. *)
Definition node_x (x_center : R) (step : Step) : R :=
  let x := x_center in
  if branch_is step "yes" then x_center - 2
  else if branch_is step "no" then x_center + 2
  else x.

(** The shape selection of [create_flowchart], with the default sizes of the
    shape functions written out. *)
Definition draw_step (ax : Axes) (x y : R) (step : Step) : Axes * NodeAnchor :=
  if str_in (type step) ["start"; "end"]%string then
    draw_oval ax x y (text step) 2.5 1.0 None
  else if String.eqb (type step) "process" then
    draw_rect ax x y (text step) 3.0 1.2 None
  else if String.eqb (type step) "decision" then
    draw_diamond ax x y (text step) 1.8 None
  else if String.eqb (type step) "io" then
    draw_parallelogram ax x y (text step) 3.0 1.0 0.3 None
  else
    draw_rect ax x y (text step) 3.0 1.2 None.

(** [for i, step in enumerate(steps)]: first loop, [nodes.append(node)]. *)
Fixpoint place_nodes (ax : Axes) (height y_spacing x_center : R) (i : nat)
    (steps : list Step) (nodes : list NodeAnchor) : Axes * list NodeAnchor :=
  match steps with
  | [] => (ax, nodes)
  | step :: rest =>
      let y := node_y height y_spacing i in
      let x := node_x x_center step in
      let '(ax, node) := draw_step ax x y step in
      place_nodes ax height y_spacing x_center (S i) rest (nodes ++ [node])
  end.

(** [if idx is not None and idx < len(nodes): draw_arrow(...)]: the arrow
    calls one guarded connection makes.  [src] picks the anchor of
    [nodes[i]], the target is always the [top] of [nodes[idx]]. *)
Definition connect_to (nodes : list NodeAnchor) (i : nat) (idx : option Z)
    (src : NodeAnchor -> Point) (label : string) (curved : bool)
    : result (list ArrowCall) :=
  match idx with
  | Some k =>
      if (k <? len nodes)%Z then
        a <- getitem nodes (Z.of_nat i) ;;
        b <- getitem nodes k ;;
        Ok [mkArrow (src a) (top b) label curved]
      else Ok []
  | None => Ok []
  end.

(** Body of the second loop: the [draw_arrow] calls of step [i], in order. *)
Definition connect_step (nodes : list NodeAnchor) (i : nat) (step : Step)
    : result (list ArrowCall) :=
  if String.eqb (type step) "decision" then
    let yes_idx := yes_to step in
    let no_idx := no_to step in
    ys <- connect_to nodes i yes_idx left "Yes" true ;;
    ns <- connect_to nodes i no_idx right "No" true ;;
    Ok (ys ++ ns)
  else
    let next_idx := next step in
    connect_to nodes i next_idx bottom "" false.

(** [for i, step in enumerate(steps)]: second loop.  An exception leaves
    the loop and the function. *)
Fixpoint connect (nodes : list NodeAnchor) (i : nat) (steps : list Step)
    : result (list ArrowCall) :=
  match steps with
  | [] => Ok []
  | step :: rest =>
      here <- connect_step nodes i step ;;
      later <- connect nodes (S i) rest ;;
      Ok (here ++ later)
  end.

(** What a finished call leaves behind: the canvas bounds, the local
    [nodes] list, the [draw_arrow] calls in order and the axes content that
    [savefig] writes out. *)
Record Figure : Type := mkFigure {
  fig_width : R;
  fig_height : R;
  fig_nodes : list NodeAnchor;
  fig_arrows : list ArrowCall;
  fig_axes : Axes
}.

Definition canvas_height (steps : list Step) : R :=
  Rmax 14 (INR (List.length steps) * 2.5).

Definition canvas_y_spacing (steps : list Step) : R :=
  (canvas_height steps - 2) / (INR (List.length steps) + 1).

(** The local [nodes] after the first loop of [create_flowchart]. *)
Definition layout_nodes (steps : list Step) : list NodeAnchor :=
  snd (place_nodes [] (canvas_height steps) (canvas_y_spacing steps) (10 / 2)
         0 steps []).

(** [create_flowchart(steps, output_path, figsize, dpi)] *)
Definition create_flowchart (steps : list Step) : result Figure :=
  let height := canvas_height steps in
  let width := 10 in
  let y_spacing := canvas_y_spacing steps in
  let x_center := width / 2 in
  let '(ax, nodes) := place_nodes [] height y_spacing x_center 0 steps [] in
  arrows <- connect nodes 0 steps ;;
  Ok {| fig_width := width; fig_height := height; fig_nodes := nodes;
        fig_arrows := arrows; fig_axes := fold_left draw_arrow arrows ax |}.

(** The shape selection of [create_linear_flowchart]. *)
Definition draw_item (ax : Axes) (x y : R) (node_type text : string)
    : Axes * NodeAnchor :=
  if str_in node_type ["start"; "end"]%string then
    draw_oval ax x y text 2.5 1.0 None
  else if String.eqb node_type "decision" then
    draw_diamond ax x y text 1.8 None
  else if String.eqb node_type "io" then
    draw_parallelogram ax x y text 3.0 1.0 0.3 None
  else
    draw_rect ax x y text 3.0 1.2 None.

(** [for i, (node_type, text) in enumerate(items)] *)
Fixpoint linear_loop (ax : Axes) (height : R) (i : nat)
    (items : list (string * string)) (nodes : list NodeAnchor)
    : result (Axes * list NodeAnchor) :=
  match items with
  | [] => Ok (ax, nodes)
  | (node_type, text) :: rest =>
      let y := height - 2 - INR i * 2 in
      let x := 4 in
      let '(ax, node) := draw_item ax x y node_type text in
      let nodes := nodes ++ [node] in
      ax <- (if (0 <? i)%nat then
               prev <- getitem nodes (Z.of_nat i - 1) ;;
               Ok (draw_arrow ax (mkArrow (bottom prev) (top node) "" false))
             else Ok ax) ;;
      linear_loop ax height (S i) rest nodes
  end.

(** [create_linear_flowchart(items, output_path, title='')] *)
Definition create_linear_flowchart (items : list (string * string))
    (title : string) : result (Axes * list NodeAnchor) :=
  let height := INR (List.length items) * 2 + 2 in
  let ax := if String.eqb title "" then []
            else [Text 4 (height - 0.5) title] in
  linear_loop ax height 0 items [].

(** Statement vocabulary: the step with an undocumented type replaced by
    ['process']; steps of a documented type are left alone. *)
Definition as_process (step : Step) : Step :=
  if str_in (type step) documented_types then step
  else mkStep "process" (text step) (next step) (yes_to step) (no_to step)
         (branch step).

(** Statement vocabulary: the successor indices the second loop of
    [create_flowchart] reads for a step: [yes_to] and [no_to] of a decision,
    [next] of any other step ([None] reads nothing). *)
Definition consulted (step : Step) : list Z :=
  let read (o : option Z) := match o with Some k => [k] | None => [] end in
  if String.eqb (type step) "decision"
  then read (yes_to step) ++ read (no_to step)
  else read (next step).

(** Statement vocabulary: the step with the successor keys the second loop
    never reads for its type removed. *)
Definition erase_unread (step : Step) : Step :=
  if String.eqb (type step) "decision"
  then mkStep (type step) (text step) None (yes_to step) (no_to step) (branch step)
  else mkStep (type step) (text step) (next step) None None (branch step).

(** Statement vocabulary: the arrow patches on the axes, in drawing order. *)
Definition arrow_patches (ax : Axes) : list Artist :=
  filter (fun p => match p with FancyArrowPatch _ _ _ => true | _ => false end) ax.

(** Statement vocabulary: the point lies on the canvas
    [0..width] x [0..height] set by [set_xlim] and [set_ylim]. *)
Definition on_canvas (width height : R) (p : Point) : Prop :=
  0 <= fst p <= width /\ 0 <= snd p <= height.

(** Statement vocabulary: the shape of an arrow between two nodes: it leaves a
    node and enters the top of a node, as a curved "Yes" from the left
    anchor, a curved "No" from the right anchor, or a straight unlabelled
    arrow from the bottom anchor. *)
Definition arrow_between (nodes : list NodeAnchor) (a : ArrowCall) : Prop :=
  exists src dst, In src nodes /\ In dst nodes /\
    arrow_end a = top dst /\
    ((arrow_start a = left src /\ arrow_label a = "Yes"%string /\ arrow_curved a = true) \/
     (arrow_start a = right src /\ arrow_label a = "No"%string /\ arrow_curved a = true) \/
     (arrow_start a = bottom src /\ arrow_label a = ""%string /\ arrow_curved a = false)).

(** Statement vocabulary: the arrows on the axes chain the nodes: arrow k
    is the straight arrow from the bottom of node k to the top of node k+1,
    and there is no other arrow. *)
Definition chained (ax : Axes) (nodes : list NodeAnchor) : Prop :=
  List.length (arrow_patches ax) = (List.length nodes - 1)%nat /\
  forall k a b,
    nth_error nodes k = Some a -> nth_error nodes (S k) = Some b ->
    nth_error (arrow_patches ax) k
    = Some (FancyArrowPatch (bottom a) (top b) "arc3,rad=0").


(** Statement vocabulary: every successor of the step is [None] or a
    non-negative integer. *)
Definition nonneg_successors (step : Step) : Prop :=
  forall k, (next step = Some k \/ yes_to step = Some k \/ no_to step = Some k) ->
            (0 <= k)%Z.

End Flowchart.

(** The [items] of the script's [__main__] block. *)
Definition example_items : list (string * string) :=
  [("start", "Start"); ("io", "Enter Username
& Password");
   ("process", "Validate
Credentials"); ("decision", "Valid?");
   ("process", "Grant Access"); ("end", "End")]%string.

(** A branching chart in the format of the docstring of [create_flowchart]:
    a decision at position 1 whose branches are the steps 2 and 3. *)
Definition example_steps : list Flowchart.Step :=
  [Flowchart.mkStep "start" "Start" (Some 1%Z) None None None;
   Flowchart.mkStep "decision" "Valid?" None (Some 2%Z) (Some 3%Z) None;
   Flowchart.mkStep "process" "Grant Access" (Some 4%Z) None None (Some "yes");
   Flowchart.mkStep "process" "Deny Access" (Some 4%Z) None None (Some "no");
   Flowchart.mkStep "end" "End" None None None None]%string.

(** ** mindmap_template.py *)

Module Mindmap.

Inductive Artist : Type :=
| FancyBboxPatch (xy : Point) (width height : R) (boxstyle facecolor : string)
    (alpha : R)
| Text (x y : R) (s : string) (fontsize : R)
| Line2D (xdata ydata : list R) (color : string) (linewidth : R).

Definition Axes : Type := list Artist.

Definition COLORS_center : string := "#E74C3C".
Definition COLORS_branch1 : string := "#3498DB".
Definition COLORS_branch2 : string := "#2ECC71".
Definition COLORS_branch3 : string := "#F39C12".
Definition COLORS_branch4 : string := "#9B59B6".
Definition COLORS_branch5 : string := "#1ABC9C".

(** [text.split('\n')]: never empty, one more piece than newlines. *)
Fixpoint split_lines (s : string) : list string :=
  match s with
  | EmptyString => [EmptyString]
  | String c rest =>
      if Ascii.eqb c (Ascii.ascii_of_nat 10) then EmptyString :: split_lines rest
      else match split_lines rest with
           | piece :: pieces => String c piece :: pieces
           | [] => [String c EmptyString]
           end
  end.

(** [enumerate(l)] as a list of pairs. *)
Definition enumerate {A : Type} (l : list A) : list (nat * A) :=
  combine (seq 0 (List.length l)) l.

(** [draw_node(ax, x, y, text, color, width=2.5, height=0.8, fontsize=11,
    alpha=0.9)] *)
Definition draw_node (ax : Axes) (x y : R) (text color : string)
    (width height fontsize alpha : R) : Axes :=
  let ax := ax ++ [FancyBboxPatch (x - width / 2, y - height / 2) width height
                     "round,pad=0.05,rounding_size=0.2" color alpha] in
  let lines := split_lines text in
  let line_height := 0.25 in
  let start_y := y + (INR (List.length lines) - 1) * line_height / 2 in
  ax ++ map (fun '(i, line) => Text x (start_y - INR i * line_height) line fontsize)
            (enumerate lines).

(** [draw_connector(ax, start, end, color='#7F8C8D', linewidth=2.5)] *)
Definition draw_connector (ax : Axes) (start stop : Point) (color : string)
    (linewidth : R) : Axes :=
  ax ++ [Line2D [fst start; fst stop] [snd start; snd stop] color linewidth].

(** [radial_layout(center, radius, count, start_angle=90)] *)
Definition radial_layout (center : Point) (radius : R) (count : nat)
    (start_angle : R) : result (list Point) :=
  angle_step <- int_truediv 360 (Z.of_nat count) ;;
  Ok (map (fun i =>
             let angle := radians (start_angle + INR i * angle_step) in
             let x := fst center + radius * cos angle in
             let y := snd center + radius * sin angle in
             (x, y))
          (seq 0 count)).


Record Branch : Type := mkBranch {
  name : string;
  color : option string;            (* the key may be absent *)
  children : option (list string)   (* the key may be absent *)
}.

Record MindMapData : Type := mkData {
  title : string;
  header : option string;           (* the key may be absent *)
  branches : list Branch
}.

(** [b.get('children', [])] *)
Definition get_children (b : Branch) : list string :=
  match children b with
  | Some c => c
  | None => []
  end.

(** [max(len(b.get('children', [])) for b in branches) if branches else 0] *)
Definition max_children (bs : list Branch) : nat :=
  match map (fun b => List.length (get_children b)) bs with
  | [] => 0%nat
  | c :: cs => fold_left Nat.max cs c
  end.

Definition canvas_width (data : MindMapData) : R :=
  Rmax 16 (INR (List.length (branches data)) * 3).

Definition canvas_height (data : MindMapData) : R :=
  Rmax 12 (4 + INR (max_children (branches data)) * 1.5).

(** [COLORS[color_keys[i % len(color_keys)]]] *)
Definition palette (i : nat) : string :=
  nth (i mod 5) [COLORS_branch1; COLORS_branch2; COLORS_branch3;
                 COLORS_branch4; COLORS_branch5] COLORS_branch1.

(** [np.linalg.norm] of a 2-vector. *)
Definition norm (v : Point) : R := sqrt (fst v * fst v + snd v * snd v).

(** [direction / np.linalg.norm(direction)] for [direction = pos - center]. *)
Definition unit_direction (center pos : Point) : Point :=
  let direction := (fst pos - fst center, snd pos - snd center) in
  (fst direction / norm direction, snd direction / norm direction).

Definition spread : R := 1.2.

(** [(j - (len(children) - 1) / 2) * spread] *)
Definition child_offset (n_children j : nat) : R :=
  (INR j - (INR n_children - 1) / 2) * spread.

(** [child_pos] of child [j] of a branch at [pos]. *)
Definition child_position (center pos : Point) (n_children j : nat) : Point :=
  let direction := unit_direction center pos in
  let child_base := (fst pos + fst direction * 2, snd pos + snd direction * 2) in
  let perp := (- snd direction, fst direction) in
  let offset := child_offset n_children j in
  (fst child_base + fst perp * offset, snd child_base + snd perp * offset).

(** The inner loop [for j, child in enumerate(children)]. *)
Definition draw_children (ax : Axes) (center pos : Point) (color : string)
    (kids : list string) : Axes :=
  fold_left
    (fun ax '(j, child) =>
       let child_pos := child_position center pos (List.length kids) j in
       let ax := draw_connector ax pos child_pos color 1.5 in
       draw_node ax (fst child_pos) (snd child_pos) child color 2.2 0.6 9 0.85)
    (enumerate kids) ax.

(** Body of [for i, (branch, pos) in enumerate(zip(branches, positions))]. *)
Definition draw_branch (ax : Axes) (center : Point) (i : nat) (b : Branch)
    (pos : Point) : Axes :=
  let color := match color b with
               | Some c => c
               | None => palette i
               end in
  let ax := draw_connector ax center pos color 3 in
  let ax := draw_node ax (fst pos) (snd pos) (name b) color 2.8 0.8 11 0.9 in
  let kids := get_children b in
  match kids with
  | [] => ax
  | _ :: _ => draw_children ax center pos color kids
  end.

(** What a finished call leaves behind: the canvas bounds, the branch
    positions, the child positions of every branch and the axes content. *)
Record Figure : Type := mkFigure {
  fig_width : R;
  fig_height : R;
  fig_center : Point;
  fig_branch_positions : list Point;
  fig_child_positions : list (list Point);
  fig_axes : Axes
}.

(** [create_mindmap(data, output_path, figsize, dpi)] *)
Definition create_mindmap (data : MindMapData) : result Figure :=
  let n_branches := List.length (branches data) in
  let width := canvas_width data in
  let height := canvas_height data in
  let center := (width / 2, height / 2) in
  let ax := draw_node [] (fst center) (snd center) (title data)
              COLORS_center 3.5 1.2 14 0.9 in
  let branch_radius := Rmin width height / 3 in
  branch_positions <- radial_layout center branch_radius n_branches 90 ;;
  let ax := fold_left
              (fun ax '(i, (b, pos)) => draw_branch ax center i b pos)
              (enumerate (combine (branches data) branch_positions)) ax in
  let ax := ax ++ [Text (width / 2) (height - 0.5)
                     (match header data with Some h => h | None => ""%string end)
                     16] in
  Ok {| fig_width := width; fig_height := height; fig_center := center;
        fig_branch_positions := branch_positions;
        fig_child_positions :=
          map (fun '(b, pos) =>
                 let n := List.length (get_children b) in
                 map (child_position center pos n) (seq 0 n))
              (combine (branches data) branch_positions);
        fig_axes := ax |}.

(** Statement vocabulary: the connector lines and the node boxes on the
    axes, in drawing order. *)
Definition lines_of (ax : Axes) : list Artist :=
  filter (fun a => match a with Line2D _ _ _ _ => true | _ => false end) ax.

Definition boxes_of (ax : Axes) : list Artist :=
  filter (fun a => match a with FancyBboxPatch _ _ _ _ _ _ => true | _ => false end) ax.

(** Statement vocabulary: the colour of a line or a box; text is drawn in
    white whatever the branch. *)
Definition colour_of (a : Artist) : option string :=
  match a with
  | FancyBboxPatch _ _ _ _ facecolor _ => Some facecolor
  | Line2D _ _ color _ => Some color
  | Text _ _ _ _ => None
  end.

(** Statement vocabulary: the number of newline characters of a string. *)
Fixpoint count_newlines (s : string) : nat :=
  match s with
  | EmptyString => 0%nat
  | String c rest =>
      ((if Ascii.eqb c (Ascii.ascii_of_nat 10) then 1 else 0)
       + count_newlines rest)%nat
  end.

(** Statement vocabulary: [M] is the largest child count among the
    branches. *)
Definition maximum_child_count (bs : list Branch) (M : nat) : Prop :=
  (exists b, In b bs /\ List.length (get_children b) = M) /\
  (forall b, In b bs -> (List.length (get_children b) <= M)%nat).

(** The [example_data] of the script's [__main__] block. *)
Definition example_data : MindMapData :=
  {| title := "Classical
Mechanics";
     header := Some "Physics Mind Map"%string;
     branches :=
       [mkBranch "Kinematics" (Some "#3498DB")
          (Some ["Position"; "Velocity"; "Acceleration"]);
        mkBranch "Dynamics" (Some "#E74C3C")
          (Some ["Newton's Laws"; "Force"; "Momentum"]);
        mkBranch "Energy" (Some "#2ECC71")
          (Some ["Kinetic"; "Potential"; "Conservation"]);
        mkBranch "Rotation" (Some "#F39C12")
          (Some ["Torque"; "Angular Momentum"; "Inertia"]);
        mkBranch "Oscillations" (Some "#9B59B6")
          (Some ["SHM"; "Damping"; "Resonance"])]%string |}.

(** Four bare branches around a centre topic. *)
Definition four_branches : MindMapData :=
  {| title := "Topic"; header := None;
     branches := [mkBranch "A" None None; mkBranch "B" None None;
                  mkBranch "C" None None; mkBranch "D" None None]%string |}.

End Mindmap.

(** ** Facts about the Python prelude *)

Section GetItem.
Context {A : Type}.

Lemma getitem_in_range (l : list A) (k : Z) :
  (0 <= k < len l)%Z ->
  exists a, nth_error l (Z.to_nat k) = Some a /\ getitem l k = Ok a.
Proof.
  unfold len, getitem. intros [Hlo Hhi]. cbv zeta.
  rewrite (proj2 (Z.ltb_ge k 0) Hlo).
  rewrite (proj2 (Z.ltb_ge k 0) Hlo).
  rewrite (proj2 (Z.leb_gt _ k) Hhi). cbn [orb].
  destruct (nth_error l (Z.to_nat k)) as [a|] eqn:Hnth.
  - exists a. split; reflexivity.
  - apply nth_error_None in Hnth. lia.
Qed.

Lemma getitem_nat (l : list A) (i : nat) (a : A) :
  nth_error l i = Some a -> getitem l (Z.of_nat i) = Ok a.
Proof.
  intros Hnth.
  assert (Hlt : (i < List.length l)%nat)
    by (apply nth_error_Some; congruence).
  destruct (getitem_in_range l (Z.of_nat i)) as [b [Hb Hget]].
  - unfold len. lia.
  - rewrite Nat2Z.id in Hb. congruence.
Qed.

Lemma getitem_below (l : list A) (k : Z) :
  (k < - len l)%Z -> getitem l k = Raise IndexError.
Proof.
  unfold len, getitem. intros Hk. cbv zeta.
  rewrite (proj2 (Z.ltb_lt k 0)) by lia.
  rewrite (proj2 (Z.ltb_lt (k + _) 0)) by lia.
  reflexivity.
Qed.

Lemma getitem_wraps (l : list A) (k : Z) :
  (- len l <= k < 0)%Z ->
  exists a, nth_error l (Z.to_nat (k + len l)) = Some a /\ getitem l k = Ok a.
Proof.
  unfold len, getitem. intros [Hlo Hhi]. cbv zeta.
  rewrite (proj2 (Z.ltb_lt k 0)) by lia.
  rewrite (proj2 (Z.ltb_ge (k + _) 0)) by lia.
  rewrite (proj2 (Z.leb_gt _ (k + _))) by lia.
  cbn [orb].
  destruct (nth_error l (Z.to_nat (k + Z.of_nat (List.length l)))) as [a|] eqn:Hnth.
  - exists a. split; reflexivity.
  - apply nth_error_None in Hnth. lia.
Qed.
End GetItem.

(** ** Properties of the flowchart layout *)

Module FlowchartProps.
Import Flowchart.

(** The anchor a shape function returns does not depend on the axes. *)
Lemma draw_step_anchor (ax : Axes) (x y : R) (step : Step) :
  snd (draw_step ax x y step) = snd (draw_step [] x y step).
Proof.
  unfold draw_step.
  repeat match goal with |- context [if ?b then _ else _] => destruct b end;
    reflexivity.
Qed.

Lemma draw_step_center (ax : Axes) (x y : R) (step : Step) :
  center (snd (draw_step ax x y step)) = (x, y).
Proof.
  unfold draw_step.
  repeat match goal with |- context [if ?b then _ else _] => destruct b end;
    reflexivity.
Qed.

Section Placement.
Variables height y_spacing x_center : R.

Lemma place_nodes_length (steps : list Step) :
  forall ax i nodes,
    List.length (snd (place_nodes ax height y_spacing x_center i steps nodes))
    = (List.length nodes + List.length steps)%nat.
Proof.
  induction steps as [|step rest IH]; intros ax i nodes; cbn [place_nodes].
  - cbn. lia.
  - destruct (draw_step ax _ _ step) as [ax' node].
    rewrite IH, length_app. cbn. lia.
Qed.

Lemma place_nodes_keeps (steps : list Step) :
  forall ax i nodes k,
    (k < List.length nodes)%nat ->
    nth_error (snd (place_nodes ax height y_spacing x_center i steps nodes)) k
    = nth_error nodes k.
Proof.
  induction steps as [|step rest IH]; intros ax i nodes k Hk;
    cbn [place_nodes].
  - reflexivity.
  - destruct (draw_step ax _ _ step) as [ax' node].
    rewrite IH by (rewrite length_app; cbn; lia).
    apply nth_error_app1. exact Hk.
Qed.

Lemma place_nodes_nth (steps : list Step) :
  forall ax i nodes k step,
    nth_error steps k = Some step ->
    nth_error (snd (place_nodes ax height y_spacing x_center i steps nodes))
              (List.length nodes + k)
    = Some (snd (draw_step [] (node_x x_center step)
                   (node_y height y_spacing (i + k)) step)).
Proof.
  induction steps as [|s rest IH]; intros ax i nodes k step Hk.
  - destruct k; discriminate.
  - cbn [place_nodes].
    destruct (draw_step ax (node_x x_center s) (node_y height y_spacing i) s)
      as [ax' node] eqn:Hdraw.
    destruct k as [|k].
    + cbn in Hk. injection Hk as ->.
      rewrite place_nodes_keeps by (rewrite length_app; cbn; lia).
      rewrite Nat.add_0_r, nth_error_app2, Nat.sub_diag by lia.
      cbn. rewrite Nat.add_0_r.
      rewrite <- (draw_step_anchor ax), Hdraw. reflexivity.
    + cbn in Hk.
      specialize (IH ax' (S i) (nodes ++ [node]) k step Hk).
      rewrite length_app in IH. cbn [List.length] in IH.
      replace (List.length nodes + S k)%nat
        with (List.length nodes + 1 + k)%nat by lia.
      replace (i + S k)%nat with (S i + k)%nat by lia.
      exact IH.
Qed.
End Placement.

Lemma layout_nodes_length (steps : list Step) :
  List.length (layout_nodes steps) = List.length steps.
Proof. unfold layout_nodes. rewrite place_nodes_length. reflexivity. Qed.

Lemma layout_nodes_nth (steps : list Step) (i : nat) (step : Step) :
  nth_error steps i = Some step ->
  nth_error (layout_nodes steps) i
  = Some (snd (draw_step [] (node_x (10 / 2) step)
                 (node_y (canvas_height steps) (canvas_y_spacing steps) i) step)).
Proof.
  intros H. unfold layout_nodes.
  apply (place_nodes_nth _ _ _ steps [] 0%nat [] i step H).
Qed.

(** A finished call exposes exactly the nodes of the first loop and the
    arrows of the second. *)
Lemma create_flowchart_Ok (steps : list Step) (fig : Figure) :
  create_flowchart steps = Ok fig ->
  fig_nodes fig = layout_nodes steps /\
  connect (layout_nodes steps) 0 steps = Ok (fig_arrows fig).
Proof.
  unfold create_flowchart, layout_nodes.
  destruct (place_nodes [] _ _ _ 0 steps []) as [ax nodes]. cbn [snd].
  destruct (connect nodes 0 steps) as [arrows|e]; cbn [bind]; intros H.
  - injection H as <-. split; reflexivity.
  - discriminate.
Qed.

(** The arrows of a run are the arrows of its steps, in step order. *)
Lemma connect_split (nodes : list NodeAnchor) (pre : list Step) :
  forall i step post arrows,
    connect nodes i (pre ++ step :: post) = Ok arrows ->
    exists before here after,
      connect nodes i pre = Ok before /\
      connect_step nodes (i + List.length pre) step = Ok here /\
      connect nodes (S (i + List.length pre)) post = Ok after /\
      arrows = before ++ here ++ after.
Proof.
  induction pre as [|s pre IH]; intros i step post arrows H.
  - cbn [app connect] in H. cbn [List.length]. rewrite Nat.add_0_r.
    destruct (connect_step nodes i step) as [here|]; [|discriminate].
    cbn [bind] in H.
    destruct (connect nodes (S i) post) as [after|]; [|discriminate].
    cbn [bind] in H. injection H as <-.
    exists [], here, after. repeat split; reflexivity.
  - cbn [app connect] in H.
    destruct (connect_step nodes i s) as [first|] eqn:Hs; [|discriminate].
    cbn [bind] in H.
    destruct (connect nodes (S i) (pre ++ step :: post)) as [rest|] eqn:Hr;
      [|discriminate].
    cbn [bind] in H. injection H as <-.
    destruct (IH _ _ _ _ Hr) as (before & here & after & Hb & Hh & Ha & ->).
    exists (first ++ before), here, after.
    cbn [connect List.length]. rewrite Hs, Hb. cbn [bind].
    replace (i + S (List.length pre))%nat with (S i + List.length pre)%nat by lia.
    repeat split; try assumption.
    now rewrite <- app_assoc.
Qed.

(** A guarded connection to a valid position makes exactly one call. *)
Lemma connect_to_valid (nodes : list NodeAnchor) (i : nat) (k : Z)
    (src : NodeAnchor -> Point) (label : string) (curved : bool)
    (a : NodeAnchor) :
  nth_error nodes i = Some a ->
  (0 <= k < len nodes)%Z ->
  exists b, nth_error nodes (Z.to_nat k) = Some b /\
            connect_to nodes i (Some k) src label curved
            = Ok [mkArrow (src a) (top b) label curved].
Proof.
  intros Ha Hk. unfold connect_to.
  rewrite (proj2 (Z.ltb_lt k (len nodes))) by lia.
  rewrite (getitem_nat _ _ _ Ha). cbn [bind].
  destruct (getitem_in_range nodes k Hk) as [b [Hb ->]].
  exists b. split; [exact Hb | reflexivity].
Qed.

(** A missing successor, or one at or past the end, makes no call. *)
Lemma connect_to_skips (nodes : list NodeAnchor) (i : nat) (idx : option Z)
    (src : NodeAnchor -> Point) (label : string) (curved : bool) :
  idx = None \/ (exists k, idx = Some k /\ (len nodes <= k)%Z) ->
  connect_to nodes i idx src label curved = Ok [].
Proof.
  intros [-> | [k [-> Hk]]]; unfold connect_to; [reflexivity|].
  now rewrite (proj2 (Z.ltb_ge k (len nodes))) by lia.
Qed.



(** C2, the part that holds: a successor that is [None] or at or past the
    end of the sequence makes no call and raises nothing. *)
Lemma missing_or_past_end_no_edge (steps : list Step) (i : nat) (step : Step) :
  let nodes := layout_nodes steps in
  let skipped idx := idx = None \/ exists k, idx = Some k /\ (len steps <= k)%Z in
  skipped (next step) -> skipped (yes_to step) -> skipped (no_to step) ->
  connect_step nodes i step = Ok [].
Proof.
  intros nodes skipped Hn Hy Hno.
  assert (Hlen : len nodes = len steps)
    by (unfold len, nodes; now rewrite layout_nodes_length).
  unfold skipped in *. rewrite <- Hlen in Hn, Hy, Hno.
  unfold connect_step.
  destruct (String.eqb (type step) "decision").
  - rewrite (connect_to_skips nodes i (yes_to step) left "Yes" true Hy).
    rewrite (connect_to_skips nodes i (no_to step) right "No" true Hno).
    reflexivity.
  - apply connect_to_skips. exact Hn.
Qed.

(** A negative successor passes the guard: below [-len] the subscript
    raises, from [-len] on it wraps around to a node counted from the end. *)
Lemma connect_to_negative (nodes : list NodeAnchor) (i : nat) (k : Z)
    (src : NodeAnchor -> Point) (label : string) (curved : bool)
    (a : NodeAnchor) :
  nth_error nodes i = Some a ->
  (k < 0)%Z ->
  ((k < - len nodes)%Z ->
   connect_to nodes i (Some k) src label curved = Raise IndexError) /\
  ((- len nodes <= k)%Z ->
   exists b, nth_error nodes (Z.to_nat (k + len nodes)) = Some b /\
             connect_to nodes i (Some k) src label curved
             = Ok [mkArrow (src a) (top b) label curved]).
Proof.
  intros Ha Hk. unfold connect_to.
  assert (Hguard : (k <? len nodes)%Z = true)
    by (apply Z.ltb_lt; unfold len; lia).
  rewrite Hguard, (getitem_nat _ _ _ Ha). cbn [bind]. split.
  - intros Hlow. now rewrite getitem_below.
  - intros Hwrap.
    destruct (getitem_wraps nodes k) as [b [Hb ->]]; [lia|].
    exists b. split; [exact Hb | reflexivity].
Qed.

(** C2.  The guard [idx < len(nodes)] has no lower bound, so a negative
    successor is not skipped: on a one-step chart [next = -2] raises
    [IndexError], and [next = -1] wraps around and draws an arrow from the
    node's bottom to its own top. *)
Theorem negative_successor_not_skipped :
  create_flowchart [mkStep "process" "a" (Some (-2)%Z) None None None]
  = Raise IndexError /\
  exists fig a,
    create_flowchart [mkStep "process" "a" (Some (-1)%Z) None None None] = Ok fig /\
    fig_nodes fig = [a] /\
    fig_arrows fig = [mkArrow (bottom a) (top a) "" false].
Proof.
  split; [reflexivity|].
  eexists. eexists. split; [reflexivity|].
  cbn [fig_nodes fig_arrows]. split; reflexivity.
Qed.

(** C4, as stated: a step with [branch == 'left'] would sit left of the
    centre.  It does not: the only markers the code reads are ['yes'] and
    ['no'], so such a step stays on the centre line [x = 5]. *)
Lemma branch_left_stays_centered :
  let steps := [mkStep "process" "a" None None None (Some "left"%string)] in
  map (fun a => fst (center a)) (layout_nodes steps) = [10 / 2] /\
  ~ (exists d, 0 < d /\
       map (fun a => fst (center a)) (layout_nodes steps) = [10 / 2 - d]).
Proof.
  split; [reflexivity|].
  intros [d [Hd H]]. cbv in H. injection H as H. lra.
Qed.

(** C4, amended.  Every step is placed at the horizontal centre [10 / 2] of
    the canvas, except that a step with [branch == 'yes'] is placed 2 to the
    left of it and a step with [branch == 'no'] 2 to the right. *)
Theorem horizontal_position (steps : list Step) (i : nat) (step : Step) :
  nth_error steps i = Some step ->
  exists a, nth_error (layout_nodes steps) i = Some a /\
    (branch step = Some "yes"%string -> fst (center a) = 10 / 2 - 2) /\
    (branch step = Some "no"%string -> fst (center a) = 10 / 2 + 2) /\
    (branch step <> Some "yes"%string -> branch step <> Some "no"%string ->
     fst (center a) = 10 / 2).
Proof.
  intros Hstep. eexists. split; [apply layout_nodes_nth; exact Hstep|].
  rewrite draw_step_center. cbn [fst]. unfold node_x, branch_is.
  repeat split.
  - intros ->. reflexivity.
  - intros ->. reflexivity.
  - intros Hy Hn. destruct (branch step) as [b|]; [|reflexivity].
    destruct (String.eqb b "yes") eqn:E1.
    + apply String.eqb_eq in E1. congruence.
    + destruct (String.eqb b "no") eqn:E2; [|reflexivity].
      apply String.eqb_eq in E2. congruence.
Qed.

Lemma horizontal_position_witness :
  exists a b c,
    nth_error (layout_nodes example_steps) 2 = Some a /\ fst (center a) = 10 / 2 - 2 /\
    nth_error (layout_nodes example_steps) 3 = Some b /\ fst (center b) = 10 / 2 + 2 /\
    nth_error (layout_nodes example_steps) 4 = Some c /\ fst (center c) = 10 / 2.
Proof.
  destruct (horizontal_position example_steps 2
              (mkStep "process" "Grant Access" (Some 4%Z) None None (Some "yes"%string))
              eq_refl) as [a [Ha [Hyes _]]].
  destruct (horizontal_position example_steps 3
              (mkStep "process" "Deny Access" (Some 4%Z) None None (Some "no"%string))
              eq_refl) as [b [Hb [_ [Hno _]]]].
  destruct (horizontal_position example_steps 4
              (mkStep "end" "End" None None None None)
              eq_refl) as [c [Hc [_ [_ Hmid]]]].
  exists a, b, c.
  repeat split; try assumption.
  - apply Hyes. reflexivity.
  - apply Hno. reflexivity.
  - apply Hmid; discriminate.
Defined.

(** The spacing of the vertical layout is positive. *)
Lemma y_spacing_pos (n : nat) :
  0 < (Rmax 14 (2.5 * INR n) - 2) / (INR n + 1).
Proof.
  pose proof (Rmax_l 14 (2.5 * INR n)).
  pose proof (pos_INR n).
  apply Rdiv_lt_0_compat; lra.
Qed.

(** C5.  A chart of N >= 1 steps gets exactly N node anchors; the centre of
    step i is at height [height - 1 - (i+1) * s], where
    [height = max(14, 2.5 * N)] and [s = (height - 2) / (N + 1)], so the
    vertical positions are evenly spaced and strictly decreasing in i. *)
Theorem vertical_positions (steps : list Step) :
  (1 <= List.length steps)%nat ->
  let N := List.length steps in
  let height := Rmax 14 (2.5 * INR N) in
  let s := (height - 2) / (INR N + 1) in
  let nodes := layout_nodes steps in
  List.length nodes = N /\
  (forall i, (i < N)%nat ->
     exists a, nth_error nodes i = Some a /\
               snd (center a) = height - 1 - (INR i + 1) * s) /\
  (forall i j a b, (i < j)%nat ->
     nth_error nodes i = Some a -> nth_error nodes j = Some b ->
     snd (center b) < snd (center a)).
Proof.
  intros _ N height s nodes.
  assert (Hh : canvas_height steps = height)
    by (unfold canvas_height, height, N; f_equal; lra).
  assert (Hs : canvas_y_spacing steps = s)
    by (unfold canvas_y_spacing; rewrite Hh; reflexivity).
  assert (Hnth : forall i a, nth_error nodes i = Some a ->
                   snd (center a) = height - 1 - (INR i + 1) * s).
  { intros i a Ha.
    destruct (nth_error steps i) as [step|] eqn:Hstep.
    - unfold nodes in Ha. rewrite (layout_nodes_nth _ _ _ Hstep) in Ha.
      injection Ha as <-. rewrite draw_step_center, Hh, Hs. reflexivity.
    - apply nth_error_None in Hstep.
      assert (i < List.length nodes)%nat by (apply nth_error_Some; congruence).
      unfold nodes in *. rewrite layout_nodes_length in *. lia. }
  split; [apply layout_nodes_length|]. split.
  - intros i Hi.
    destruct (nth_error nodes i) as [a|] eqn:Ha.
    + exists a. split; [reflexivity | apply Hnth; exact Ha].
    + apply nth_error_None in Ha. unfold nodes in Ha.
      rewrite layout_nodes_length in Ha. fold N in Ha. lia.
  - intros i j a b Hij Ha Hb.
    rewrite (Hnth _ _ Ha), (Hnth _ _ Hb).
    pose proof (y_spacing_pos N) as Hpos. fold height s in Hpos.
    apply lt_INR in Hij.
    assert (0 < (INR j - INR i) * s) by (apply Rmult_lt_0_compat; lra).
    lra.
Qed.

Lemma vertical_positions_witness :
  List.length (layout_nodes example_steps) = 5%nat /\
  (exists a, nth_error (layout_nodes example_steps) 0 = Some a /\
             snd (center a) = 14 - 1 - (0 + 1) * ((14 - 2) / (5 + 1))) /\
  (forall a b, nth_error (layout_nodes example_steps) 0 = Some a ->
               nth_error (layout_nodes example_steps) 1 = Some b ->
               snd (center b) < snd (center a)).
Proof.
  destruct (vertical_positions example_steps ltac:(cbn; lia)) as [Hlen [Hy Hdec]].
  split; [exact Hlen|]. split.
  - destruct (Hy 0%nat ltac:(cbn; lia)) as [a [Ha Hya]].
    exists a. split; [exact Ha|]. rewrite Hya. cbn [List.length example_steps INR].
    replace (Rmax 14 (2.5 * (1 + 1 + 1 + 1 + 1))) with 14; [lra|].
    symmetry. apply Rmax_left. lra.
  - intros a b. apply (Hdec 0%nat 1%nat a b). lia.
Defined.



Lemma unknown_type_tests (ty : string) :
  ~ In ty documented_types ->
  str_in ty ["start"; "end"]%string = false /\
  String.eqb ty "process" = false /\
  String.eqb ty "decision" = false /\
  String.eqb ty "io" = false.
Proof.
  unfold documented_types, str_in. cbn [In existsb]. intros H.
  assert (ty <> "start"%string) by (intros ->; tauto).
  assert (ty <> "process"%string) by (intros ->; tauto).
  assert (ty <> "decision"%string) by (intros ->; tauto).
  assert (ty <> "io"%string) by (intros ->; tauto).
  assert (ty <> "end"%string) by (intros ->; tauto).
  rewrite !(proj2 (String.eqb_neq ty _)) by assumption.
  repeat split; reflexivity.
Qed.

Lemma draw_item_anchor (ax : Axes) (x y : R) (ty text : string) :
  snd (draw_item ax x y ty text) = snd (draw_item [] x y ty text).
Proof.
  unfold draw_item.
  repeat match goal with |- context [if ?b then _ else _] => destruct b end;
    reflexivity.
Qed.

(** The loop of [create_linear_flowchart] never raises: [nodes[i-1]] is
    only read for [i > 0], after node [i] has been appended. *)
Lemma linear_loop_Ok (height : R) (items : list (string * string)) :
  forall ax i nodes,
    List.length nodes = i ->
    exists ax' nodes',
      linear_loop ax height i items nodes = Ok (ax', nodes') /\
      List.length nodes' = (i + List.length items)%nat /\
      (forall k ty text,
         nth_error items k = Some (ty, text) ->
         nth_error nodes' (i + k)
         = Some (snd (draw_item [] 4 (height - 2 - INR (i + k) * 2) ty text))).
Proof.
  induction items as [|[ty text] rest IH]; intros ax i nodes Hlen.
  - exists ax, nodes. cbn [linear_loop List.length].
    repeat split; [lia|]. intros [|k] ? ? H; discriminate.
  - cbn [linear_loop].
    destruct (draw_item ax 4 (height - 2 - INR i * 2) ty text)
      as [ax1 node] eqn:Hdraw.
    assert (Hlen1 : List.length (nodes ++ [node]) = S i)
      by (rewrite length_app; cbn; lia).
    assert (Harrow : exists ax2,
      (if (0 <? i)%nat
       then prev <- getitem (nodes ++ [node]) (Z.of_nat i - 1) ;;
            Ok (draw_arrow ax1 (mkArrow (bottom prev) (top node) "" false))
       else Ok ax1) = Ok ax2).
    { destruct (0 <? i)%nat eqn:Hi; [|eexists; reflexivity].
      apply Nat.ltb_lt in Hi.
      destruct (getitem_in_range (nodes ++ [node]) (Z.of_nat i - 1))
        as [prev [_ ->]]; [unfold len; lia|].
      eexists. reflexivity. }
    destruct Harrow as [ax2 ->]. cbn [bind].
    destruct (IH ax2 (S i) (nodes ++ [node]) Hlen1)
      as (ax' & nodes' & Hrun & Hlen' & Hnth).
    exists ax', nodes'. split; [exact Hrun|]. split; [cbn; lia|].
    intros [|k] ty' text' Hk.
    + cbn in Hk. injection Hk as <- <-.
      rewrite Nat.add_0_r.
      assert (Hkeep : forall items' ax0 j ns ax3 ns3 m,
                linear_loop ax0 height j items' ns = Ok (ax3, ns3) ->
                (m < List.length ns)%nat -> nth_error ns3 m = nth_error ns m).
      { clear. induction items' as [|[t x] r IHr]; intros ax0 j ns ax3 ns3 m Hr Hm.
        - cbn in Hr. injection Hr as <- <-. reflexivity.
        - cbn [linear_loop] in Hr.
          destruct (draw_item ax0 4 (height - 2 - INR j * 2) t x) as [a1 n1].
          destruct (if (0 <? j)%nat then _ else _) as [a2|]; [|discriminate].
          cbn [bind] in Hr.
          rewrite (IHr _ _ _ _ _ m Hr) by (rewrite length_app; cbn; lia).
          apply nth_error_app1. exact Hm. }
      rewrite (Hkeep _ _ _ _ _ _ i Hrun) by lia.
      rewrite nth_error_app2, Hlen, Nat.sub_diag by lia. cbn.
      rewrite <- (draw_item_anchor ax), Hdraw. reflexivity.
    + cbn in Hk. replace (i + S k)%nat with (S i + k)%nat by lia.
      apply Hnth. exact Hk.
Qed.

(** With successors that are [None] or non-negative the second loop of
    [create_flowchart] never raises. *)
Lemma connect_to_nonneg_Ok (nodes : list NodeAnchor) (i : nat) (idx : option Z)
    (src : NodeAnchor -> Point) (label : string) (curved : bool) :
  (i < List.length nodes)%nat ->
  (forall k, idx = Some k -> (0 <= k)%Z) ->
  exists arrows, connect_to nodes i idx src label curved = Ok arrows.
Proof.
  intros Hi Hidx. unfold connect_to.
  destruct idx as [k|]; [|eexists; reflexivity].
  destruct (k <? len nodes)%Z eqn:Hk; [|eexists; reflexivity].
  apply Z.ltb_lt in Hk.
  destruct (getitem_in_range nodes (Z.of_nat i)) as [a [_ ->]];
    [unfold len; lia|].
  destruct (getitem_in_range nodes k) as [b [_ ->]];
    [specialize (Hidx k eq_refl); lia|].
  eexists. reflexivity.
Qed.

Lemma connect_step_nonneg_Ok (nodes : list NodeAnchor) (i : nat) (step : Step) :
  (i < List.length nodes)%nat ->
  nonneg_successors step ->
  exists arrows, connect_step nodes i step = Ok arrows.
Proof.
  intros Hi Hnn. unfold connect_step.
  destruct (String.eqb (type step) "decision").
  - destruct (connect_to_nonneg_Ok nodes i (yes_to step) left "Yes" true Hi)
      as [ys ->]; [intros k Hk; apply Hnn; tauto|].
    destruct (connect_to_nonneg_Ok nodes i (no_to step) right "No" true Hi)
      as [ns ->]; [intros k Hk; apply Hnn; tauto|].
    eexists. reflexivity.
  - apply connect_to_nonneg_Ok; [exact Hi|].
    intros k Hk. apply Hnn. tauto.
Qed.

Lemma connect_nonneg_Ok (nodes : list NodeAnchor) (steps : list Step) :
  forall i,
    (i + List.length steps <= List.length nodes)%nat ->
    Forall nonneg_successors steps ->
    exists arrows, connect nodes i steps = Ok arrows.
Proof.
  induction steps as [|step rest IH]; intros i Hi Hall.
  - eexists. reflexivity.
  - cbn [connect]. cbn [List.length] in Hi.
    inversion Hall as [|? ? Hstep Hrest]; subst.
    destruct (connect_step_nonneg_Ok nodes i step ltac:(lia) Hstep) as [here ->].
    destruct (IH (S i) ltac:(lia) Hrest) as [later ->].
    eexists. reflexivity.
Qed.

Lemma create_flowchart_nonneg_Ok (steps : list Step) :
  Forall nonneg_successors steps ->
  exists fig, create_flowchart steps = Ok fig.
Proof.
  intros Hall.
  destruct (connect_nonneg_Ok (layout_nodes steps) steps 0%nat) as [arrows Hc].
  - rewrite layout_nodes_length. lia.
  - exact Hall.
  - unfold create_flowchart. unfold layout_nodes in Hc.
    destruct (place_nodes [] _ _ _ 0 steps []) as [ax nodes].
    cbn [snd] in Hc. rewrite Hc. eexists. reflexivity.
Qed.

Lemma str_in_false (ty : string) (l : list string) :
  str_in ty l = false -> ~ In ty l.
Proof.
  unfold str_in. intros H Hin.
  assert (existsb (String.eqb ty) l = true)
    by (apply existsb_exists; exists ty; split; [exact Hin | apply String.eqb_refl]).
  congruence.
Qed.

(** A step and its [as_process] form are drawn at the same place by the
    same artists and connected by the same arrows. *)
Lemma as_process_same (step : Step) :
  (forall ax x y, draw_step ax x y (as_process step) = draw_step ax x y step) /\
  (forall x_center, node_x x_center (as_process step) = node_x x_center step) /\
  (forall nodes i,
     connect_step nodes i (as_process step) = connect_step nodes i step).
Proof.
  unfold as_process.
  destruct (str_in (type step) documented_types) eqn:E;
    [repeat split; reflexivity|].
  destruct (unknown_type_tests _ (str_in_false _ _ E)) as (T1 & T2 & T3 & T4).
  split; [|split].
  - intros ax x y. unfold draw_step. cbn [type text]. now rewrite T1, T2, T3, T4.
  - reflexivity.
  - intros nodes i. unfold connect_step. cbn [type next]. now rewrite T3.
Qed.

Lemma create_flowchart_as_process (steps : list Step) :
  create_flowchart (map as_process steps) = create_flowchart steps.
Proof.
  unfold create_flowchart, canvas_y_spacing, canvas_height.
  rewrite length_map.
  set (h := Rmax 14 (INR (List.length steps) * 2.5)).
  set (s := (h - 2) / (INR (List.length steps) + 1)).
  assert (Hplace : forall l ax i nodes,
            place_nodes ax h s (10 / 2) i (map as_process l) nodes
            = place_nodes ax h s (10 / 2) i l nodes).
  { induction l as [|step rest IH]; intros ax i nodes; [reflexivity|].
    cbn [map place_nodes].
    destruct (as_process_same step) as (Hd & Hx & _).
    rewrite Hx, Hd.
    destruct (draw_step ax _ _ step) as [ax' node]. apply IH. }
  rewrite Hplace.
  destruct (place_nodes [] h s (10 / 2) 0 steps []) as [ax nodes].
  assert (Hconnect : forall l i,
            connect nodes i (map as_process l) = connect nodes i l).
  { induction l as [|step rest IH]; intros i; [reflexivity|].
    cbn [map connect].
    destruct (as_process_same step) as (_ & _ & Hc).
    now rewrite Hc, IH. }
  now rewrite Hconnect.
Qed.

(** C10, as stated: a chart with a step of an undocumented type would never
    raise.  It can: the type is handled, but the step's [next = -2] passes
    the guard of the second loop and [nodes[-2]] raises [IndexError]. *)
Lemma unknown_type_chart_can_raise :
  ~ In "subprocess"%string documented_types /\
  create_flowchart [mkStep "subprocess" "x" (Some (-2)%Z) None None None]
  = Raise IndexError.
Proof.
  split; [cbn; intuition discriminate | reflexivity].
Qed.

(** C10, amended.  A step whose type is none of the documented ones is
    drawn by [draw_rect] with the process defaults, in [create_flowchart] and
    in [create_linear_flowchart] alike, and its node carries the rectangle
    anchors.  The type itself raises nothing: [create_linear_flowchart]
    always finishes, and [create_flowchart] gives exactly the result (or the
    exception) it gives when every such step is a ['process'] step, so it
    finishes whenever the successors are [None] or non-negative. *)
Theorem unknown_type_falls_back (ty : string) :
  ~ In ty documented_types ->
  (forall steps i step,
     nth_error steps i = Some step -> type step = ty ->
     (forall ax x y, draw_step ax x y step = draw_rect ax x y (text step) 3.0 1.2 None) /\
     nth_error (layout_nodes steps) i
     = Some (snd (draw_rect [] (node_x (10 / 2) step)
                    (node_y (canvas_height steps) (canvas_y_spacing steps) i)
                    (text step) 3.0 1.2 None)) /\
     nth_error (map as_process steps) i
     = Some (mkStep "process" (text step) (next step) (yes_to step)
               (no_to step) (branch step)) /\
     create_flowchart steps = create_flowchart (map as_process steps) /\
     (Forall nonneg_successors steps -> exists fig, create_flowchart steps = Ok fig)) /\
  (forall items title i text,
     nth_error items i = Some (ty, text) ->
     (forall ax x y, draw_item ax x y ty text = draw_rect ax x y text 3.0 1.2 None) /\
     exists ax nodes,
       create_linear_flowchart items title = Ok (ax, nodes) /\
       nth_error nodes i
       = Some (snd (draw_rect [] 4
                      (INR (List.length items) * 2 + 2 - 2 - INR i * 2)
                      text 3.0 1.2 None))).
Proof.
  intros Hty.
  destruct (unknown_type_tests ty Hty) as (T1 & T2 & T3 & T4).
  assert (Hstep : forall step, type step = ty -> forall ax x y,
            draw_step ax x y step = draw_rect ax x y (text step) 3.0 1.2 None).
  { intros step <- ax x y. unfold draw_step. now rewrite T1, T2, T3, T4. }
  assert (Hitem : forall text ax x y,
            draw_item ax x y ty text = draw_rect ax x y text 3.0 1.2 None).
  { intros text ax x y. unfold draw_item. now rewrite T1, T3, T4. }
  split.
  - intros steps i step Hnth Htype. split; [apply Hstep; exact Htype|].
    split; [|split; [|split]].
    + rewrite (layout_nodes_nth _ _ _ Hnth), (Hstep step Htype). reflexivity.
    + rewrite nth_error_map, Hnth. cbn [option_map]. unfold as_process.
      rewrite Htype.
      destruct (str_in ty documented_types) eqn:E; [|reflexivity].
      exfalso. apply Hty. unfold str_in in E. apply existsb_exists in E.
      destruct E as [d [Hd Heq]]. apply String.eqb_eq in Heq. now subst d.
    + symmetry. apply create_flowchart_as_process.
    + apply create_flowchart_nonneg_Ok.
  - intros items title i text Hnth. split; [apply Hitem|].
    unfold create_linear_flowchart.
    destruct (linear_loop_Ok (INR (List.length items) * 2 + 2) items
                (if String.eqb title "" then []
                 else [Text 4 (INR (List.length items) * 2 + 2 - 0.5) title])
                0%nat [] eq_refl) as (ax & nodes & Hrun & _ & Hnodes).
    exists ax, nodes. split; [exact Hrun|].
    specialize (Hnodes i ty text Hnth). cbn [Nat.add] in Hnodes.
    rewrite Hnodes, Hitem. reflexivity.
Qed.

Lemma unknown_type_falls_back_witness :
  (exists fig,
     create_flowchart [mkStep "subprocess" "x" None None None None] = Ok fig) /\
  create_flowchart [mkStep "subprocess" "x" None None None None]
  = create_flowchart [mkStep "process" "x" None None None None] /\
  nth_error (layout_nodes [mkStep "subprocess" "x" None None None None]) 0
  = Some (snd (draw_rect [] (10 / 2) (14 - 1 - (0 + 1) * ((14 - 2) / (1 + 1)))
                 "x" 3.0 1.2 None)) /\
  exists ax nodes,
    create_linear_flowchart [("subprocess", "x")]%string "" = Ok (ax, nodes) /\
    nth_error nodes 0 = Some (snd (draw_rect [] 4 (1 * 2 + 2 - 2 - 0 * 2) "x" 3.0 1.2 None)).
Proof.
  assert (Hty : ~ In "subprocess"%string documented_types)
    by (cbn; intuition discriminate).
  destruct (unknown_type_falls_back "subprocess" Hty) as [Hflow Hlin].
  destruct (Hflow [mkStep "subprocess" "x" None None None None] 0%nat
              (mkStep "subprocess" "x" None None None None) eq_refl eq_refl)
    as (_ & Hnode & _ & Hsame & Hok).
  split; [| split; [| split]].
  - apply Hok. repeat constructor. intros k [H | [H | H]]; discriminate.
  - exact Hsame.
  - rewrite Hnode. unfold node_x, node_y, canvas_y_spacing, canvas_height, branch_is.
    cbn [branch List.length INR text].
    replace (Rmax 14 (1 * 2.5)) with 14 by (symmetry; apply Rmax_left; lra).
    reflexivity.
  - destruct (Hlin [("subprocess", "x")]%string ""%string 0%nat "x"%string eq_refl)
      as (_ & ax & nodes & Hrun & Hnode').
    exists ax, nodes. split; [exact Hrun | exact Hnode'].
Defined.

End FlowchartProps.

(** ** Properties of the mind-map layout *)

Module MindmapProps.
Import Mindmap.

(** Drawing only appends to the axes. *)
Lemma draw_node_app (ax : Axes) (x y : R) (text color : string)
    (width height fontsize alpha : R) :
  draw_node ax x y text color width height fontsize alpha
  = ax ++ draw_node [] x y text color width height fontsize alpha.
Proof. unfold draw_node. cbn [app]. now rewrite <- app_assoc. Qed.

Lemma fold_left_appends {A B : Type} (g : list A -> B -> list A)
    (h : B -> list A) (l : list B) :
  (forall acc b, g acc b = acc ++ h b) ->
  forall acc, fold_left g l acc = acc ++ flat_map h l.
Proof.
  intros Hg. induction l as [|b l IH]; intros acc; cbn [fold_left flat_map].
  - now rewrite app_nil_r.
  - now rewrite IH, Hg, <- app_assoc.
Qed.

(** The artists of the inner loop: for child [j] a connector from the
    branch to [child_position j] and a node centred there. *)
Lemma draw_children_artists (ax : Axes) (center pos : Point) (color : string)
    (kids : list string) :
  draw_children ax center pos color kids
  = ax ++ flat_map
            (fun '(j, child) =>
               let child_pos := child_position center pos (List.length kids) j in
               draw_connector [] pos child_pos color 1.5
               ++ draw_node [] (fst child_pos) (snd child_pos) child color
                    2.2 0.6 9 0.85)
            (enumerate kids).
Proof.
  unfold draw_children. apply fold_left_appends.
  intros acc [j child]. cbv zeta. rewrite draw_node_app.
  unfold draw_connector. cbn [app]. now rewrite <- app_assoc.
Qed.

(** [radial_layout] raises exactly on an empty count. *)
Lemma radial_layout_zero (center : Point) (radius start_angle : R) :
  radial_layout center radius 0 start_angle = Raise ZeroDivisionError.
Proof. reflexivity. Qed.

Lemma radial_layout_pos (center : Point) (radius start_angle : R) (count : nat) :
  (1 <= count)%nat ->
  radial_layout center radius count start_angle
  = Ok (map (fun i =>
               let angle := radians (start_angle + INR i * (360 / INR count)) in
               (fst center + radius * cos angle, snd center + radius * sin angle))
            (seq 0 count)).
Proof.
  intros Hc. unfold radial_layout, int_truediv.
  destruct (Z.of_nat count =? 0)%Z eqn:E; [apply Z.eqb_eq in E; lia|].
  cbn [bind]. now rewrite <- INR_IZR_INZ.
Qed.

Lemma radial_nth (center : Point) (radius start_angle : R) (count i : nat) :
  (i < count)%nat ->
  nth_error
    (map (fun i =>
            let angle := radians (start_angle + INR i * (360 / INR count)) in
            (fst center + radius * cos angle, snd center + radius * sin angle))
         (seq 0 count)) i
  = Some (fst center
          + radius * cos (radians (start_angle + INR i * (360 / INR count))),
          snd center
          + radius * sin (radians (start_angle + INR i * (360 / INR count)))).
Proof.
  intros Hi. rewrite nth_error_map, nth_error_seq.
  rewrite (proj2 (Nat.ltb_lt i count) Hi). reflexivity.
Qed.

(** A finished call exposes the positions [radial_layout] computed. *)
Lemma create_mindmap_Ok (data : MindMapData) (positions : list Point) :
  radial_layout (canvas_width data / 2, canvas_height data / 2)
    (Rmin (canvas_width data) (canvas_height data) / 3)
    (List.length (branches data)) 90 = Ok positions ->
  exists fig, create_mindmap data = Ok fig /\
              fig_width fig = canvas_width data /\
              fig_height fig = canvas_height data /\
              fig_center fig = (canvas_width data / 2, canvas_height data / 2) /\
              fig_branch_positions fig = positions.
Proof.
  intros H. unfold create_mindmap. cbv zeta. cbn [fst snd]. rewrite H.
  cbn [bind]. eexists. repeat split.
Qed.

Lemma branch_radius_pos (data : MindMapData) :
  0 < Rmin (canvas_width data) (canvas_height data) / 3.
Proof.
  unfold canvas_width, canvas_height.
  pose proof (Rmax_l 16 (INR (List.length (branches data)) * 3)).
  pose proof (Rmax_l 12 (4 + INR (max_children (branches data)) * 1.5)).
  apply Rdiv_lt_0_compat; [|lra].
  apply Rmin_glb_lt; lra.
Qed.

(** A point at angle [t] on the circle of radius [r >= 0] is at distance
    [r] from the centre. *)
Lemma norm_on_circle (cx cy r t : R) :
  0 <= r -> norm (cx + r * cos t - cx, cy + r * sin t - cy) = r.
Proof.
  intros Hr. unfold norm. cbn [fst snd].
  replace ((cx + r * cos t - cx) * (cx + r * cos t - cx)
           + (cy + r * sin t - cy) * (cy + r * sin t - cy))
    with (r * r * ((sin t)² + (cos t)²)) by (unfold Rsqr; ring).
  rewrite sin2_cos2, Rmult_1_r. apply sqrt_square. exact Hr.
Qed.

Lemma four_branches_canvas :
  canvas_width four_branches = 16 /\ canvas_height four_branches = 12.
Proof.
  unfold canvas_width, canvas_height. cbn [branches four_branches List.length
    max_children map get_children children fold_left Nat.max INR].
  split; apply Rmax_left; lra.
Qed.

(** C3, as stated: clockwise from the top, so that with four branches the
    second one would sit at 90 - 90 = 0 degrees, right of the centre at
    (12, 6).  The code adds the step to the angle: the second branch is at
    180 degrees, left of the centre at (4, 6). *)
Lemma second_of_four_is_left :
  exists fig,
    create_mindmap four_branches = Ok fig /\
    fig_center fig = (8, 6) /\
    nth_error (fig_branch_positions fig) 1 = Some (4, 6) /\
    nth_error (fig_branch_positions fig) 1
    <> Some (8 + 4 * cos (radians (90 - 1 * (360 / 4))),
             6 + 4 * sin (radians (90 - 1 * (360 / 4)))).
Proof.
  destruct four_branches_canvas as [HW HH].
  assert (Hr : Rmin 16 12 / 3 = 4)
    by (rewrite Rmin_right by lra; lra).
  destruct (create_mindmap_Ok four_branches
              [(8, 6 + 4); (4, 6); (8, 6 - 4); (12, 6)])
    as (fig & Hrun & _ & _ & Hc & Hp).
  - rewrite HW, HH, Hr, radial_layout_pos by (cbn; lia).
    cbn [map seq List.length branches four_branches fst snd INR]. unfold radians.
    replace (8 / 2) with 4 by lra. replace (16 / 2) with 8 by lra.
    replace (12 / 2) with 6 by lra.
    replace ((90 + 0 * (360 / (1 + 1 + 1 + 1))) * PI / 180) with (PI / 2) by lra.
    replace ((90 + 1 * (360 / (1 + 1 + 1 + 1))) * PI / 180) with PI by lra.
    replace ((90 + (1 + 1) * (360 / (1 + 1 + 1 + 1))) * PI / 180)
      with (3 * (PI / 2)) by lra.
    replace ((90 + (1 + 1 + 1) * (360 / (1 + 1 + 1 + 1))) * PI / 180)
      with (2 * PI) by lra.
    rewrite cos_PI2, sin_PI2, cos_PI, sin_PI, cos_3PI2, sin_3PI2, cos_2PI, sin_2PI.
    apply f_equal.
    repeat (apply f_equal2; [apply f_equal2; lra|]). reflexivity.
  - exists fig. split; [exact Hrun|]. split.
    + rewrite Hc, HW, HH. apply f_equal2; lra.
    + rewrite Hp. cbn [nth_error]. split; [reflexivity|].
      unfold radians.
      replace ((90 - 1 * (360 / 4)) * PI / 180) with 0 by lra.
      rewrite cos_0, sin_0. intros H. injection H as H _. lra.
Qed.

(** C3, amended.  With N >= 1 branches the call finishes and places the N
    branch nodes on the circle of radius [min(width, height) / 3] around the
    canvas centre, each at distance exactly the radius from it (over the
    reals); the first branch is at 90 degrees, straight above the centre, and
    branch i is at angle [90 + i * 360 / N] degrees, that is successive
    branches proceed counter-clockwise by 360 / N degrees. *)
Theorem branch_placement (data : MindMapData) :
  let N := List.length (branches data) in
  (1 <= N)%nat ->
  let cx := canvas_width data / 2 in
  let cy := canvas_height data / 2 in
  let r := Rmin (canvas_width data) (canvas_height data) / 3 in
  exists fig,
    create_mindmap data = Ok fig /\
    fig_center fig = (cx, cy) /\
    List.length (fig_branch_positions fig) = N /\
    nth_error (fig_branch_positions fig) 0 = Some (cx, cy + r) /\
    forall i, (i < N)%nat ->
      let theta := radians (90 + INR i * (360 / INR N)) in
      exists p,
        nth_error (fig_branch_positions fig) i = Some p /\
        p = (cx + r * cos theta, cy + r * sin theta) /\
        norm (fst p - cx, snd p - cy) = r.
Proof.
  intros N HN cx cy r.
  destruct (create_mindmap_Ok data _ (radial_layout_pos _ _ 90 N HN))
    as (fig & Hrun & _ & _ & Hc & Hp).
  exists fig. rewrite Hp.
  split; [exact Hrun|]. split; [exact Hc|].
  split; [now rewrite length_map, length_seq|]. split.
  - etransitivity; [apply radial_nth; exact HN|].
    cbn [INR fst snd]. unfold radians. rewrite Rmult_0_l, Rplus_0_r.
    replace (90 * PI / 180) with (PI / 2) by lra.
    rewrite cos_PI2, sin_PI2. unfold cx, cy, r.
    apply f_equal. apply f_equal2; lra.
  - intros i Hi theta. eexists. split; [apply radial_nth; exact Hi|].
    split; [reflexivity|]. cbn [fst snd].
    apply norm_on_circle. left. apply branch_radius_pos.
Qed.

Lemma branch_placement_witness :
  exists fig p,
    create_mindmap example_data = Ok fig /\
    List.length (fig_branch_positions fig) = 5%nat /\
    nth_error (fig_branch_positions fig) 1 = Some p /\
    p = (canvas_width example_data / 2
         + Rmin (canvas_width example_data) (canvas_height example_data) / 3
           * cos (radians (90 + 1 * (360 / (1 + 1 + 1 + 1 + 1)))),
         canvas_height example_data / 2
         + Rmin (canvas_width example_data) (canvas_height example_data) / 3
           * sin (radians (90 + 1 * (360 / (1 + 1 + 1 + 1 + 1))))).
Proof.
  destruct (branch_placement example_data ltac:(cbn; lia))
    as (fig & Hrun & _ & Hlen & _ & Hpos).
  destruct (Hpos 1%nat ltac:(cbn; lia)) as (p & Hp & Heq & _).
  exists fig, p. repeat split; assumption.
Defined.

(** The position expressions of the child loop.  For a branch at [P] with outward direction
    [D = (P - center) / |P - center|], child j of [count] children is placed
    at [P + 2*D + off_j * (-D.y, D.x)] with
    [off_j = (j - (count - 1) / 2) * 1.2], so neighbours are 1.2 apart along
    the perpendicular.  An only child sits exactly at [P + 2*D]; of three
    children the middle one has offset 0 and the outer two have opposite
    offsets. *)
Lemma child_position_formula (center P : Point) :
  let d := (fst P - fst center, snd P - snd center) in
  let length_d := sqrt (fst d * fst d + snd d * snd d) in
  let D := (fst d / length_d, snd d / length_d) in
  let base := (fst P + 2 * fst D, snd P + 2 * snd D) in
  (forall count j,
     child_position center P count j
     = (fst base + - snd D * child_offset count j,
        snd base + fst D * child_offset count j) /\
     child_offset count j = (INR j - (INR count - 1) / 2) * 1.2 /\
     child_offset count (S j) - child_offset count j = 1.2) /\
  child_position center P 1 0 = base /\
  child_offset 1 0 = 0 /\
  child_offset 3 1 = 0 /\
  child_offset 3 0 = - child_offset 3 2.
Proof.
  intros d length_d D base.
  assert (Hoff : forall count j,
            child_offset count j = (INR j - (INR count - 1) / 2) * 1.2)
    by reflexivity.
  assert (Hpos : forall count j,
            child_position center P count j
            = (fst base + - snd D * child_offset count j,
               snd base + fst D * child_offset count j)).
  { intros count j. unfold child_position, unit_direction, norm.
    unfold base, D, length_d, d. cbn [fst snd]. apply f_equal2; ring. }
  assert (H10 : child_offset 1 0 = 0)
    by (rewrite Hoff; cbn [INR]; lra).
  split; [|split; [|split; [|split]]].
  - intros count j. split; [apply Hpos|]. split; [apply Hoff|].
    rewrite !Hoff, S_INR. lra.
  - rewrite Hpos, H10. unfold base, D, length_d, d. cbn [fst snd].
    apply f_equal2; ring.
  - exact H10.
  - rewrite Hoff. cbn [INR]. lra.
  - rewrite !Hoff. cbn [INR]. lra.
Qed.

(** C7.  With no branches [create_mindmap] does not finish: the guard on
    [max_children] lets the empty list through, and [radial_layout] then
    divides 360 by a count of zero.  The flow layout does finish on an empty
    step sequence. *)
Theorem zero_branches_raises (title : string) (header : option string) :
  create_mindmap {| title := title; header := header; branches := [] |}
  = Raise ZeroDivisionError /\
  max_children [] = 0%nat /\
  (exists fig, Flowchart.create_flowchart [] = Ok fig /\
               Flowchart.fig_nodes fig = [] /\ Flowchart.fig_arrows fig = []) /\
  Flowchart.create_linear_flowchart [] "" = Ok ([], []).
Proof.
  split; [reflexivity|]. split; [reflexivity|]. split.
  - eexists. split; [reflexivity|]. split; reflexivity.
  - reflexivity.
Qed.

Lemma fold_max_spec (cs : list nat) :
  forall c,
    let m := fold_left Nat.max cs c in
    (c <= m)%nat /\ (forall x, In x cs -> (x <= m)%nat) /\ (m = c \/ In m cs).
Proof.
  induction cs as [|x cs IH]; intros c; cbn [fold_left].
  - cbn. repeat split; [lia | tauto | now left].
  - destruct (IH (Nat.max c x)) as (H1 & H2 & H3). cbv zeta in *.
    split; [lia|]. split.
    + intros y [Hy | Hy]; [subst y; lia | now apply H2].
    + destruct H3 as [H3 | H3]; [|right; now right].
      destruct (Nat.max_spec c x) as [[_ E] | [_ E]]; rewrite E in H3 |- *.
      * right. left. now symmetry.
      * now left.
Qed.

(** The guarded generator expression computes the maximum child count. *)
Lemma max_children_is_maximum (bs : list Branch) (M : nat) :
  maximum_child_count bs M -> max_children bs = M.
Proof.
  intros [[b [Hb HbM]] Hall]. unfold max_children.
  pose (count := fun b : Branch => List.length (get_children b)).
  fold count.
  assert (HM : In M (map count bs))
    by (rewrite <- HbM; exact (in_map count bs b Hb)).
  assert (Hle : forall x, In x (map count bs) -> (x <= M)%nat).
  { intros x Hx. apply in_map_iff in Hx. destruct Hx as [b' [<- Hb']].
    now apply Hall. }
  destruct (map count bs) as [|c cs]; [contradiction|].
  destruct (fold_max_spec cs c) as (H1 & H2 & H3). cbv zeta in *.
  apply Nat.le_antisymm.
  - apply Hle. destruct H3 as [-> | H3]; [now left | now right].
  - destruct HM as [<- | HM]; [exact H1 | now apply H2].
Qed.

(** C8.  With N branches whose maximum child count is M, the canvas is at
    least [max(16, 3*N)] wide and at least [max(12, 4 + 1.5*M)] high, and a
    finished call uses exactly this canvas. *)
Theorem canvas_bounds (data : MindMapData) (M : nat) :
  maximum_child_count (branches data) M ->
  let N := List.length (branches data) in
  Rmax 16 (3 * INR N) <= canvas_width data /\
  Rmax 12 (4 + 1.5 * INR M) <= canvas_height data /\
  exists fig, create_mindmap data = Ok fig /\
              fig_width fig = canvas_width data /\
              fig_height fig = canvas_height data.
Proof.
  intros HM N. unfold canvas_width, canvas_height.
  rewrite (max_children_is_maximum _ _ HM). fold N.
  replace (INR N * 3) with (3 * INR N) by ring.
  replace (INR M * 1.5) with (1.5 * INR M) by ring.
  split; [apply Rle_refl|]. split; [apply Rle_refl|].
  assert (HN : (1 <= N)%nat).
  { destruct HM as [[b [Hb _]] _]. unfold N.
    destruct (branches data); [contradiction | cbn; lia]. }
  destruct (create_mindmap_Ok data _ (radial_layout_pos _ _ 90 N HN))
    as (fig & Hrun & HW & HH & _).
  exists fig. split; [exact Hrun|]. split.
  - rewrite HW. unfold canvas_width. fold N. f_equal. ring.
  - rewrite HH. unfold canvas_height.
    rewrite (max_children_is_maximum _ _ HM). f_equal. ring.
Qed.

Lemma canvas_bounds_witness :
  Rmax 16 (3 * INR 5) <= canvas_width example_data /\
  Rmax 12 (4 + 1.5 * INR 3) <= canvas_height example_data.
Proof.
  assert (HM : maximum_child_count (branches example_data) 3).
  { split.
    - eexists. split; [left; reflexivity | reflexivity].
    - intros b Hb. cbn in Hb.
      repeat (destruct Hb as [<- | Hb]; [cbn; lia|]). contradiction. }
  destruct (canvas_bounds example_data 3 HM) as (HW & HH & _).
  split; [exact HW | exact HH].
Defined.

End MindmapProps.


(** ** Further properties of the flowchart builders *)

Module FlowchartMore.
Import Flowchart FlowchartProps.

(** A successful subscript returns an element of the list. *)
Lemma getitem_Ok_In {A : Type} (l : list A) (k : Z) (a : A) :
  getitem l k = Ok a -> In a l.
Proof.
  unfold getitem. cbv zeta.
  destruct (_ || _)%bool; [discriminate|].
  destruct (nth_error l _) as [b|] eqn:Hnth; [|discriminate].
  intros H. injection H as <-. eapply nth_error_In. exact Hnth.
Qed.

(** What one guarded connection does, by the position of its index. *)
Lemma connect_to_cases (nodes : list NodeAnchor) (i : nat) (idx : option Z)
    (src : NodeAnchor -> Point) (label : string) (curved : bool) :
  (i < List.length nodes)%nat ->
  match idx with
  | Some k =>
      if (k <? - len nodes)%Z
      then connect_to nodes i idx src label curved = Raise IndexError
      else connect_to nodes i idx src label curved = Ok [] \/
           exists a b, In a nodes /\ In b nodes /\
             connect_to nodes i idx src label curved
             = Ok [mkArrow (src a) (top b) label curved]
  | None => connect_to nodes i idx src label curved = Ok []
  end.
Proof.
  intros Hi. destruct idx as [k|]; [|reflexivity].
  destruct (nth_error nodes i) as [a|] eqn:Ha;
    [|apply nth_error_None in Ha; lia].
  assert (Hin : In a nodes) by (eapply nth_error_In; exact Ha).
  destruct (k <? - len nodes)%Z eqn:Hlow.
  - apply Z.ltb_lt in Hlow.
    apply (connect_to_negative nodes i k src label curved a Ha); unfold len in *; lia.
  - apply Z.ltb_ge in Hlow.
    destruct (Z_lt_dec k 0) as [Hneg | Hpos].
    + right.
      destruct (connect_to_negative nodes i k src label curved a Ha Hneg)
        as [_ Hwrap].
      destruct (Hwrap Hlow) as [b [Hb ->]].
      exists a, b. repeat split; [exact Hin | eapply nth_error_In; exact Hb].
    + destruct (Z_lt_dec k (len nodes)) as [Hin_range | Hpast].
      * right.
        destruct (connect_to_valid nodes i k src label curved a Ha) as [b [Hb ->]];
          [lia|].
        exists a, b. repeat split; [exact Hin | eapply nth_error_In; exact Hb].
      * left. apply connect_to_skips. right. exists k. split; [reflexivity | lia].
Qed.

Lemma connect_to_good (nodes : list NodeAnchor) (i : nat) (idx : option Z)
    (src : NodeAnchor -> Point) (label : string) (curved : bool) :
  (i < List.length nodes)%nat ->
  (forall k, idx = Some k -> (- len nodes <= k)%Z) ->
  exists arrows,
    connect_to nodes i idx src label curved = Ok arrows /\
    (List.length arrows <= match idx with Some _ => 1 | None => 0 end)%nat /\
    forall a, In a arrows ->
      exists s d, In s nodes /\ In d nodes /\
        a = mkArrow (src s) (top d) label curved.
Proof.
  intros Hi Hidx. pose proof (connect_to_cases nodes i idx src label curved Hi) as H.
  destruct idx as [k|].
  - rewrite (proj2 (Z.ltb_ge k (- len nodes)) (Hidx k eq_refl)) in H.
    destruct H as [-> | (a & b & Ha & Hb & ->)].
    + exists []. repeat split; [cbn; lia | intros ? []].
    + eexists. repeat split; [cbn; lia|].
      intros x [<- | []]. exists a, b. repeat split; assumption.
  - rewrite H. exists []. repeat split; [cbn; lia | intros ? []].
Qed.

Lemma connect_to_bad (nodes : list NodeAnchor) (i : nat) (k : Z)
    (src : NodeAnchor -> Point) (label : string) (curved : bool) :
  (i < List.length nodes)%nat ->
  (k < - len nodes)%Z ->
  connect_to nodes i (Some k) src label curved = Raise IndexError.
Proof.
  intros Hi Hk.
  pose proof (connect_to_cases nodes i (Some k) src label curved Hi) as H.
  cbv beta iota in H.
  now rewrite (proj2 (Z.ltb_lt k (- len nodes)) Hk) in H.
Qed.

(** One iteration of the second loop: it finishes when every index it
    reads is at least [-len], with at most one arrow per index read, each
    between two nodes; it raises [IndexError] when one is below. *)
Lemma connect_step_cases (nodes : list NodeAnchor) (i : nat) (step : Step) :
  (i < List.length nodes)%nat ->
  (Forall (fun k => (- len nodes <= k)%Z) (consulted step) ->
   exists arrows,
     connect_step nodes i step = Ok arrows /\
     (List.length arrows <= List.length (consulted step))%nat /\
     Forall (arrow_between nodes) arrows) /\
  (Exists (fun k => (k < - len nodes)%Z) (consulted step) ->
   connect_step nodes i step = Raise IndexError).
Proof.
  intros Hi. unfold consulted, connect_step.
  destruct (String.eqb (type step) "decision"); split.
  - intros Hall. apply Forall_app in Hall. destruct Hall as [Hy Hn].
    destruct (connect_to_good nodes i (yes_to step) left "Yes" true Hi)
      as (ys & -> & Hly & Hys).
    { intros k Hk. rewrite Hk in Hy. now inversion Hy. }
    destruct (connect_to_good nodes i (no_to step) right "No" true Hi)
      as (ns & -> & Hln & Hns).
    { intros k Hk. rewrite Hk in Hn. now inversion Hn. }
    cbn [bind]. exists (ys ++ ns). split; [reflexivity|]. split.
    + rewrite !length_app.
      destruct (yes_to step), (no_to step); cbn [List.length] in *; lia.
    + apply Forall_app. split; apply Forall_forall; intros a Ha.
      * destruct (Hys a Ha) as (s & d & Hs & Hd & ->).
        exists s, d. repeat split; try assumption. left. repeat split.
      * destruct (Hns a Ha) as (s & d & Hs & Hd & ->).
        exists s, d. repeat split; try assumption. right. left. repeat split.
  - intros Hex. apply Exists_app in Hex.
    destruct (yes_to step) as [y|] eqn:Hy.
    + destruct (Z_lt_dec y (- len nodes)) as [Hlow | Hok].
      * now rewrite (connect_to_bad nodes i y left "Yes" true Hi Hlow).
      * destruct (connect_to_good nodes i (Some y) left "Yes" true Hi)
          as (ys & -> & _); [intros k [= <-]; lia|].
        cbn [bind].
        destruct Hex as [Hex | Hex];
          [inversion Hex as [? ? H0 | ? ? H0]; [lia | inversion H0]|].
        destruct (no_to step) as [n|]; [|inversion Hex].
        inversion Hex as [? ? H0 | ? ? H0]; [|inversion H0].
        now rewrite (connect_to_bad nodes i n right "No" true Hi H0).
    + cbn [bind connect_to].
      destruct Hex as [Hex | Hex]; [inversion Hex|].
      destruct (no_to step) as [n|]; [|inversion Hex].
      inversion Hex as [? ? H0 | ? ? H0]; [|inversion H0].
      now rewrite (connect_to_bad nodes i n right "No" true Hi H0).
  - intros Hall.
    destruct (connect_to_good nodes i (next step) bottom "" false Hi)
      as (es & -> & Hl & Hes).
    { intros k Hk. rewrite Hk in Hall. now inversion Hall. }
    exists es. split; [reflexivity|]. split.
    + destruct (next step); cbn [List.length] in *; lia.
    + apply Forall_forall. intros a Ha.
      destruct (Hes a Ha) as (s & d & Hs & Hd & ->).
      exists s, d. repeat split; try assumption. right. right. repeat split.
  - intros Hex. destruct (next step) as [k|]; [|inversion Hex].
    inversion Hex as [? ? H0 | ? ? H0]; [|inversion H0].
    exact (connect_to_bad nodes i k bottom "" false Hi H0).
Qed.

Section SecondLoop.
Variable nodes : list NodeAnchor.

Let reads_ok (step : Step) : Prop :=
  Forall (fun k => (- len nodes <= k)%Z) (consulted step).
Let reads_bad (step : Step) : Prop :=
  Exists (fun k => (k < - len nodes)%Z) (consulted step).

Lemma reads_ok_or_bad (steps : list Step) :
  Forall reads_ok steps \/ Exists reads_bad steps.
Proof.
  induction steps as [|step rest [IH | IH]].
  - left. constructor.
  - destruct (Forall_Exists_dec (fun k => (- len nodes <= k)%Z)
                (fun k => Z_le_dec (- len nodes) k) (consulted step))
      as [Hok | Hbad].
    + left. constructor; assumption.
    + right. left. unfold reads_bad.
      eapply Exists_impl; [|exact Hbad]. cbv beta. intros k Hk. lia.
  - right. right. exact IH.
Qed.

Lemma connect_all_ok (steps : list Step) :
  forall i,
    (i + List.length steps <= List.length nodes)%nat ->
    Forall reads_ok steps ->
    exists arrows,
      connect nodes i steps = Ok arrows /\
      (List.length arrows <= List.length (flat_map consulted steps))%nat /\
      Forall (arrow_between nodes) arrows.
Proof.
  induction steps as [|step rest IH]; intros i Hi Hall.
  - exists []. repeat split; [cbn; lia | constructor].
  - cbn [List.length] in Hi. inversion Hall as [|? ? Hstep Hrest]; subst.
    destruct (connect_step_cases nodes i step ltac:(lia)) as [Hgood _].
    destruct (Hgood Hstep) as (here & Hh & Hlh & Hah).
    destruct (IH (S i) ltac:(lia) Hrest) as (later & Hl & Hll & Hal).
    exists (here ++ later). cbn [connect flat_map]. rewrite Hh, Hl. cbn [bind].
    split; [reflexivity|]. split.
    + rewrite !length_app. lia.
    + apply Forall_app. split; assumption.
Qed.

Lemma connect_some_bad (steps : list Step) :
  forall i,
    (i + List.length steps <= List.length nodes)%nat ->
    Exists reads_bad steps ->
    connect nodes i steps = Raise IndexError.
Proof.
  induction steps as [|step rest IH]; intros i Hi Hex.
  - inversion Hex.
  - cbn [List.length] in Hi. cbn [connect].
    destruct (connect_step_cases nodes i step ltac:(lia)) as [Hgood Hbad].
    destruct (reads_ok_or_bad [step]) as [Hok | Hb].
    + inversion Hok as [|? ? Hstep _]; subst.
      destruct (Hgood Hstep) as (here & -> & _). cbn [bind].
      inversion Hex as [? ? Hhead | ? ? Htail]; subst.
      * exfalso. unfold reads_ok, reads_bad in *.
        apply Exists_exists in Hhead. destruct Hhead as [k [Hk Hlt]].
        rewrite Forall_forall in Hstep. specialize (Hstep k Hk). lia.
      * now rewrite (IH (S i) ltac:(lia) Htail).
    + inversion Hb as [? ? Hhead | ? ? Htail]; subst; [|inversion Htail].
      now rewrite (Hbad Hhead).
Qed.
End SecondLoop.

Lemma create_flowchart_connect (steps : list Step) :
  create_flowchart steps
  = (arrows <- connect (layout_nodes steps) 0 steps ;;
     Ok {| fig_width := 10; fig_height := canvas_height steps;
           fig_nodes := layout_nodes steps; fig_arrows := arrows;
           fig_axes :=
             fold_left draw_arrow arrows
               (fst (place_nodes [] (canvas_height steps)
                       (canvas_y_spacing steps) (10 / 2) 0 steps [])) |}).
Proof.
  unfold create_flowchart, layout_nodes.
  destruct (place_nodes [] _ _ _ 0 steps []) as [ax nodes]. reflexivity.
Qed.

(** X1.  [create_flowchart] finishes exactly when every successor index
    the second loop reads is at least [-len(steps)]; when one is below, the
    call raises [IndexError]. *)
Theorem create_flowchart_raises_iff (steps : list Step) :
  (Forall (fun step => Forall (fun k => (- len steps <= k)%Z) (consulted step))
     steps ->
   exists fig, create_flowchart steps = Ok fig) /\
  (Exists (fun step => Exists (fun k => (k < - len steps)%Z) (consulted step))
     steps ->
   create_flowchart steps = Raise IndexError).
Proof.
  assert (Hlen : len (layout_nodes steps) = len steps)
    by (unfold len; now rewrite layout_nodes_length).
  rewrite create_flowchart_connect, <- Hlen. split.
  - intros Hall.
    destruct (connect_all_ok (layout_nodes steps) steps 0%nat) as (arrows & -> & _).
    + rewrite layout_nodes_length. lia.
    + exact Hall.
    + cbn [bind]. eexists. reflexivity.
  - intros Hex.
    rewrite (connect_some_bad (layout_nodes steps) steps 0%nat);
      [reflexivity | rewrite layout_nodes_length; lia | exact Hex].
Qed.

Lemma create_flowchart_raises_iff_witness :
  (exists fig, create_flowchart example_steps = Ok fig) /\
  create_flowchart [mkStep "start" "a" (Some 5%Z) None None None;
                    mkStep "decision" "b" None (Some (-3)%Z) None None]
  = Raise IndexError.
Proof.
  split.
  - apply (proj1 (create_flowchart_raises_iff example_steps)).
    repeat constructor; unfold len; cbn; lia.
  - apply (proj2 (create_flowchart_raises_iff _)).
    right. left. left. unfold len. cbn. lia.
Defined.

(** X2.  In a finished chart every arrow runs between two nodes of the
    chart, in one of the three forms (curved "Yes" from a left anchor, curved
    "No" from a right anchor, straight and unlabelled from a bottom anchor),
    always into a top anchor; there is at most one arrow per successor index
    read, hence at most two per step. *)
Theorem arrows_of_finished_chart (steps : list Step) (fig : Figure) :
  create_flowchart steps = Ok fig ->
  Forall (arrow_between (fig_nodes fig)) (fig_arrows fig) /\
  (List.length (fig_arrows fig) <= List.length (flat_map consulted steps))%nat /\
  (List.length (fig_arrows fig) <= 2 * List.length steps)%nat.
Proof.
  rewrite create_flowchart_connect. intros Hrun.
  destruct (reads_ok_or_bad (layout_nodes steps) steps) as [Hok | Hbad].
  - destruct (connect_all_ok (layout_nodes steps) steps 0%nat) as (arrows & Hc & Hl & Ha);
      [rewrite layout_nodes_length; lia | exact Hok |].
    rewrite Hc in Hrun. cbn [bind] in Hrun. injection Hrun as <-.
    cbn [fig_nodes fig_arrows]. split; [exact Ha|]. split; [exact Hl|].
    eapply Nat.le_trans; [exact Hl|].
    clear. induction steps as [|step rest IH]; [cbn; lia|].
    cbn [flat_map List.length]. rewrite length_app.
    assert (List.length (consulted step) <= 2)%nat.
    { unfold consulted.
      destruct (String.eqb _ _), (yes_to step), (no_to step), (next step);
        cbn; lia. }
    lia.
  - rewrite (connect_some_bad (layout_nodes steps) steps 0%nat) in Hrun;
      [discriminate | rewrite layout_nodes_length; lia | exact Hbad].
Qed.

Lemma arrows_of_finished_chart_witness :
  exists fig,
    create_flowchart example_steps = Ok fig /\
    Forall (arrow_between (fig_nodes fig)) (fig_arrows fig) /\
    (List.length (fig_arrows fig) <= 10)%nat.
Proof.
  eexists. split; [reflexivity|].
  destruct (arrows_of_finished_chart example_steps _ eq_refl) as (H1 & _ & H3).
  split; [exact H1 | exact H3].
Defined.

Lemma erase_unread_draw (ax : Axes) (x y : R) (step : Step) :
  draw_step ax x y (erase_unread step) = draw_step ax x y step /\
  forall x_center, node_x x_center (erase_unread step) = node_x x_center step.
Proof.
  unfold erase_unread. destruct (String.eqb (type step) "decision"); split; reflexivity.
Qed.

Lemma erase_unread_connect (nodes : list NodeAnchor) (i : nat) (step : Step) :
  connect_step nodes i (erase_unread step) = connect_step nodes i step.
Proof.
  unfold erase_unread, connect_step.
  destruct (String.eqb (type step) "decision") eqn:E;
    cbn [type yes_to no_to next]; rewrite E; reflexivity.
Qed.

(** X3.  The keys the second loop does not read for a step's type have no
    effect at all: removing [next] from every decision and [yes_to] /
    [no_to] from every other step changes neither the result nor the
    exception of [create_flowchart]. *)
Theorem unread_successors_ignored (steps : list Step) :
  create_flowchart (map erase_unread steps) = create_flowchart steps.
Proof.
  unfold create_flowchart, canvas_y_spacing, canvas_height.
  rewrite length_map.
  set (h := Rmax 14 (INR (List.length steps) * 2.5)).
  set (s := (h - 2) / (INR (List.length steps) + 1)).
  assert (Hplace : forall l ax i nodes,
            place_nodes ax h s (10 / 2) i (map erase_unread l) nodes
            = place_nodes ax h s (10 / 2) i l nodes).
  { induction l as [|step rest IH]; intros ax i nodes; [reflexivity|].
    cbn [map place_nodes].
    destruct (erase_unread_draw ax (node_x (10 / 2) step) (node_y h s i) step)
      as [Hd Hx].
    rewrite Hx, Hd.
    destruct (draw_step ax _ _ step) as [ax' node]. apply IH. }
  rewrite Hplace.
  destruct (place_nodes [] h s (10 / 2) 0 steps []) as [ax nodes].
  assert (Hconnect : forall l i,
            connect nodes i (map erase_unread l) = connect nodes i l).
  { induction l as [|step rest IH]; intros i; [reflexivity|].
    cbn [map connect]. now rewrite erase_unread_connect, IH. }
  now rewrite Hconnect.
Qed.

(** The half-extents of the node of a step: between 0.5 and 0.9 high,
    between 0.9 and 1.5 wide, whatever the type. *)
Lemma draw_step_extents (ax : Axes) (x y : R) (step : Step) :
  exists hw hh,
    0.9 <= hw <= 1.5 /\ 0.5 <= hh <= 0.9 /\
    snd (draw_step ax x y step)
    = {| center := (x, y); top := (x, y + hh); bottom := (x, y - hh);
         left := (x - hw, y); right := (x + hw, y) |}.
Proof.
  unfold draw_step.
  destruct (str_in _ _);
    [|destruct (String.eqb _ "process");
      [|destruct (String.eqb _ "decision"); [|destruct (String.eqb _ "io")]]].
  - exists (2.5 / 2), (1.0 / 2). repeat split; lra.
  - exists (3.0 / 2), (1.2 / 2). repeat split; lra.
  - exists (1.8 / 2), (1.8 / 2). repeat split; lra.
  - exists (3.0 / 2), (1.0 / 2). repeat split; lra.
  - exists (3.0 / 2), (1.2 / 2). repeat split; lra.
Qed.

(** The vertical step is never below 13/7 (reached at six steps) and the
    last node is a full step above the lower margin. *)
Lemma y_spacing_bounds (steps : list Step) :
  let n := INR (List.length steps) in
  let s := canvas_y_spacing steps in
  13 / 7 <= s /\ (n + 1) * s = canvas_height steps - 2.
Proof.
  intros n s. unfold s, canvas_y_spacing. fold n.
  pose proof (pos_INR (List.length steps)) as Hn. fold n in Hn.
  split.
  - apply Rmult_le_reg_r with (n + 1); [lra|].
    unfold Rdiv at 2. rewrite Rmult_assoc, Rinv_l, Rmult_1_r by lra.
    unfold canvas_height. fold n.
    destruct (Rle_dec n 5) as [Hsmall | Hbig].
    + pose proof (Rmax_l 14 (n * 2.5)). lra.
    + assert (6 <= n).
      { assert (Hnat : (5 < List.length steps)%nat).
        { apply INR_lt. unfold n in Hbig. cbn [INR]. lra. }
        apply le_INR in Hnat. cbn [INR] in Hnat. unfold n. lra. }
      pose proof (Rmax_r 14 (n * 2.5)). lra.
  - field. lra.
Qed.

(** Node [i] of the layout, with its extents. *)
Lemma layout_node_shape (steps : list Step) (i : nat) (a : NodeAnchor) :
  nth_error (layout_nodes steps) i = Some a ->
  exists step hw hh,
    nth_error steps i = Some step /\
    0.9 <= hw <= 1.5 /\ 0.5 <= hh <= 0.9 /\
    let x := node_x (10 / 2) step in
    let y := node_y (canvas_height steps) (canvas_y_spacing steps) i in
    a = {| center := (x, y); top := (x, y + hh); bottom := (x, y - hh);
           left := (x - hw, y); right := (x + hw, y) |}.
Proof.
  intros Ha.
  destruct (nth_error steps i) as [step|] eqn:Hstep.
  - rewrite (layout_nodes_nth _ _ _ Hstep) in Ha. injection Ha as <-.
    destruct (draw_step_extents [] (node_x (10 / 2) step)
                (node_y (canvas_height steps) (canvas_y_spacing steps) i) step)
      as (hw & hh & Hw & Hh & Heq).
    exists step, hw, hh. repeat split; tauto || exact Heq.
  - apply nth_error_None in Hstep.
    assert (i < List.length (layout_nodes steps))%nat
      by (apply nth_error_Some; congruence).
    rewrite layout_nodes_length in *. lia.
Qed.

(** X4.  Consecutive nodes of a chart never overlap vertically: the top
    anchor of step i+1 lies strictly below the bottom anchor of step i,
    whatever the number of steps and their types. *)
Theorem consecutive_nodes_apart (steps : list Step) (i : nat)
    (a b : NodeAnchor) :
  nth_error (layout_nodes steps) i = Some a ->
  nth_error (layout_nodes steps) (S i) = Some b ->
  snd (top b) < snd (bottom a).
Proof.
  intros Ha Hb.
  destruct (layout_node_shape steps i a Ha) as (sa & wa & ha & _ & _ & Hha & ->).
  destruct (layout_node_shape steps (S i) b Hb) as (sb & wb & hb & _ & _ & Hhb & ->).
  cbn [top bottom snd]. unfold node_y. rewrite S_INR.
  destruct (y_spacing_bounds steps) as [Hs _]. cbv zeta in Hs.
  set (s := canvas_y_spacing steps) in *.
  assert (canvas_height steps - 1 - (INR i + 1 + 1) * s
          = canvas_height steps - 1 - (INR i + 1) * s - s) by ring.
  lra.
Qed.

Lemma consecutive_nodes_apart_witness :
  exists a b,
    nth_error (layout_nodes example_steps) 1 = Some a /\
    nth_error (layout_nodes example_steps) 2 = Some b /\
    snd (top b) < snd (bottom a).
Proof.
  assert (Ha : exists a, nth_error (layout_nodes example_steps) 1 = Some a)
    by (eexists; reflexivity).
  assert (Hb : exists b, nth_error (layout_nodes example_steps) 2 = Some b)
    by (eexists; reflexivity).
  destruct Ha as [a Ha]. destruct Hb as [b Hb]. exists a, b.
  split; [exact Ha|]. split; [exact Hb|].
  exact (consecutive_nodes_apart example_steps 1 a b Ha Hb).
Defined.

(** X5.  Every anchor of every node lies on the canvas: between 0 and the
    width 10 horizontally, between 0 and the canvas height vertically, also
    for steps moved left or right by a branch marker. *)
Theorem anchors_on_canvas (steps : list Step) (a : NodeAnchor) :
  In a (layout_nodes steps) ->
  let inside := on_canvas 10 (canvas_height steps) in
  inside (center a) /\ inside (top a) /\ inside (bottom a) /\
  inside (left a) /\ inside (right a).
Proof.
  intros Hin inside. apply In_nth_error in Hin. destruct Hin as [i Hi].
  assert (Hlt : (i < List.length steps)%nat).
  { rewrite <- layout_nodes_length. apply nth_error_Some. congruence. }
  destruct (layout_node_shape steps i a Hi) as (st & hw & hh & _ & Hhw & Hhh & ->).
  cbv zeta. cbn [center top bottom left right].
  destruct (y_spacing_bounds steps) as [Hs Hn]. cbv zeta in Hs, Hn.
  set (s := canvas_y_spacing steps) in *.
  set (h := canvas_height steps) in *.
  set (n := INR (List.length steps)) in *.
  assert (Hi1 : INR i + 1 <= n).
  { unfold n. rewrite <- S_INR. apply le_INR. lia. }
  assert (Hi0 : 0 <= INR i) by apply pos_INR.
  assert (Hy : 1 + s <= node_y h s i <= h - 1 - s).
  { unfold node_y. split.
    - assert ((INR i + 1) * s <= n * s) by (apply Rmult_le_compat_r; lra).
      lra.
    - assert (0 <= INR i * s) by (apply Rmult_le_pos; lra).
      lra. }
  assert (Hx : 3 <= node_x (10 / 2) st <= 7).
  { unfold node_x.
    destruct (branch_is st "yes"); [lra|]. destruct (branch_is st "no"); lra. }
  unfold inside, on_canvas. cbn [fst snd]. repeat split; lra.
Qed.

Lemma anchors_on_canvas_witness :
  exists a,
    In a (layout_nodes example_steps) /\
    on_canvas 10 (canvas_height example_steps) (left a) /\
    on_canvas 10 (canvas_height example_steps) (top a).
Proof.
  assert (Ha : exists a, nth_error (layout_nodes example_steps) 2 = Some a)
    by (eexists; reflexivity).
  destruct Ha as [a Ha]. exists a.
  assert (Hin : In a (layout_nodes example_steps))
    by (eapply nth_error_In; exact Ha).
  destruct (anchors_on_canvas example_steps a Hin) as (_ & Ht & _ & Hl & _).
  split; [exact Hin | split; [exact Hl | exact Ht]].
Defined.

Lemma draw_item_is_draw_step (ax : Axes) (x y : R) (ty text : string)
    (nxt yes no : option Z) (br : option string) :
  draw_item ax x y ty text = draw_step ax x y (mkStep ty text nxt yes no br).
Proof.
  unfold draw_item, draw_step. cbn [type Flowchart.text].
  destruct (str_in ty _); [reflexivity|].
  destruct (String.eqb ty "process") eqn:Ep.
  - apply String.eqb_eq in Ep. subst ty. reflexivity.
  - reflexivity.
Qed.

Lemma draw_item_no_arrow (ax : Axes) (x y : R) (ty text : string) :
  arrow_patches (fst (draw_item ax x y ty text)) = arrow_patches ax.
Proof.
  unfold draw_item, draw_oval, draw_rect, draw_diamond, draw_parallelogram,
    arrow_patches.
  repeat match goal with |- context [if ?b then _ else _] => destruct b end;
    cbn [fst]; rewrite !filter_app; cbn [filter]; now rewrite !app_nil_r.
Qed.

Lemma draw_plain_arrow (ax : Axes) (p q : Point) :
  arrow_patches (draw_arrow ax (mkArrow p q "" false))
  = arrow_patches ax ++ [FancyArrowPatch p q "arc3,rad=0"].
Proof.
  unfold draw_arrow, arrow_patches. cbn [arrow_label arrow_curved arrow_start
    arrow_end String.eqb]. now rewrite filter_app.
Qed.

(** The chain of arrows is an invariant of the loop of
    [create_linear_flowchart]. *)
Lemma linear_loop_chained (height : R) (items : list (string * string)) :
  forall ax i nodes ax' nodes',
    List.length nodes = i ->
    chained ax nodes ->
    linear_loop ax height i items nodes = Ok (ax', nodes') ->
    chained ax' nodes'.
Proof.
  induction items as [|[ty text] rest IH];
    intros ax i nodes ax' nodes' Hlen Hch Hrun.
  - cbn in Hrun. injection Hrun as <- <-. exact Hch.
  - cbn [linear_loop] in Hrun.
    pose proof (draw_item_no_arrow ax 4 (height - 2 - INR i * 2) ty text) as Hno.
    destruct (draw_item ax 4 (height - 2 - INR i * 2) ty text) as [ax1 node].
    cbn [fst] in Hno.
    assert (Hlen1 : List.length (nodes ++ [node]) = S i)
      by (rewrite length_app; cbn; lia).
    destruct Hch as [Hcount Hlink].
    destruct (0 <? i)%nat eqn:Hi.
    + apply Nat.ltb_lt in Hi.
      destruct (getitem_in_range (nodes ++ [node]) (Z.of_nat i - 1))
        as [prev [Hprev Hget]]; [unfold len; lia|].
      rewrite Hget in Hrun. cbn [bind] in Hrun.
      replace (Z.to_nat (Z.of_nat i - 1)) with (i - 1)%nat in Hprev by lia.
      rewrite nth_error_app1 in Hprev by lia.
      apply (IH _ (S i) _ _ _ Hlen1) in Hrun; [exact Hrun|].
      unfold chained. rewrite draw_plain_arrow, Hno. split.
      * rewrite length_app, Hcount, Hlen1. cbn. lia.
      * intros k a b Ha Hb.
        destruct (Nat.lt_ge_cases (S k) i) as [Hk | Hk].
        -- rewrite nth_error_app1 in Ha, Hb by lia.
           rewrite nth_error_app1 by lia. now apply Hlink.
        -- assert (k = (i - 1)%nat).
           { assert (S k < S i)%nat
               by (rewrite <- Hlen1; apply nth_error_Some; congruence). lia. }
           subst k. rewrite nth_error_app1 in Ha by lia.
           replace (S (i - 1)) with i in Hb by lia.
           rewrite nth_error_app2, Hlen, Nat.sub_diag in Hb by lia.
           cbn in Hb. injection Hb as <-.
           rewrite Hprev in Ha. injection Ha as <-.
           rewrite nth_error_app2 by lia.
           replace (i - 1 - List.length (arrow_patches ax))%nat with 0%nat by lia.
           reflexivity.
    + apply Nat.ltb_ge in Hi.
      destruct nodes as [|n0 ns]; [|cbn in Hlen; lia].
      cbn in Hlen. subst i. cbn [bind] in Hrun.
      apply (IH _ 1%nat _ _ _ Hlen1) in Hrun; [exact Hrun|].
      unfold chained. rewrite Hno. split.
      * rewrite Hcount. reflexivity.
      * intros [|k] a b Ha Hb; cbn in Hb; [discriminate|].
        destruct k; discriminate.
Qed.

(** A run of [create_linear_flowchart]: it finishes, and node [i] is the
    shape of item [i] centred at [(4, height - 2 - 2*i)]. *)
Lemma linear_run (items : list (string * string)) (title : string) :
  exists ax nodes,
    create_linear_flowchart items title = Ok (ax, nodes) /\
    List.length nodes = List.length items /\
    chained ax nodes /\
    forall i a, nth_error nodes i = Some a ->
      exists hw hh,
        0.9 <= hw <= 1.5 /\ 0.5 <= hh <= 0.9 /\
        let y := INR (List.length items) * 2 + 2 - 2 - INR i * 2 in
        a = {| center := (4, y); top := (4, y + hh); bottom := (4, y - hh);
               left := (4 - hw, y); right := (4 + hw, y) |}.
Proof.
  unfold create_linear_flowchart.
  set (height := INR (List.length items) * 2 + 2).
  set (ax0 := if String.eqb title "" then [] else [Text 4 (height - 0.5) title]).
  destruct (linear_loop_Ok height items ax0 0%nat [] eq_refl)
    as (ax & nodes & Hrun & Hlen & Hnth).
  exists ax, nodes. split; [exact Hrun|]. split; [exact Hlen|]. split.
  - apply (linear_loop_chained height items ax0 0%nat [] ax nodes eq_refl);
      [|exact Hrun].
    split; [unfold ax0; now destruct (String.eqb title "")|].
    intros [|k] a b Ha; discriminate.
  - intros i a Ha.
    destruct (nth_error items i) as [[ty text]|] eqn:Hitem.
    + specialize (Hnth i ty text Hitem). cbn [Nat.add] in Hnth.
      rewrite Hnth in Ha. injection Ha as <-.
      rewrite (draw_item_is_draw_step [] _ _ ty text None None None None).
      destruct (draw_step_extents [] 4 (height - 2 - INR i * 2)
                  (mkStep ty text None None None None))
        as (hw & hh & Hw & Hh & Heq).
      exists hw, hh. split; [exact Hw|]. split; [exact Hh|]. exact Heq.
    + apply nth_error_None in Hitem.
      assert (i < List.length nodes)%nat by (apply nth_error_Some; congruence).
      cbn [Nat.add] in Hlen. lia.
Qed.

(** X6.  [create_linear_flowchart] never raises.  It makes one node per
    item, all on the line x = 4, node i centred at height [2 * (N - i)] for N
    items, and consecutive nodes keep a vertical gap of at least 0.2 between
    the bottom of one and the top of the next. *)
Theorem linear_chart_layout (items : list (string * string)) (title : string) :
  exists ax nodes,
    create_linear_flowchart items title = Ok (ax, nodes) /\
    List.length nodes = List.length items /\
    (forall i a, nth_error nodes i = Some a ->
       center a = (4, 2 * (INR (List.length items) - INR i))) /\
    (forall i a b,
       nth_error nodes i = Some a -> nth_error nodes (S i) = Some b ->
       0.2 <= snd (bottom a) - snd (top b)).
Proof.
  destruct (linear_run items title) as (ax & nodes & Hrun & Hlen & _ & Hshape).
  exists ax, nodes. split; [exact Hrun|]. split; [exact Hlen|]. split.
  - intros i a Ha. destruct (Hshape i a Ha) as (hw & hh & _ & _ & ->).
    cbn [center]. apply f_equal2; lra.
  - intros i a b Ha Hb.
    destruct (Hshape i a Ha) as (wa & ha & _ & Hha & ->).
    destruct (Hshape (S i) b Hb) as (wb & hb & _ & Hhb & ->).
    cbn [top bottom snd]. rewrite S_INR. lra.
Qed.

Lemma linear_chart_layout_witness :
  exists ax nodes a b,
    create_linear_flowchart example_items "Login Process" = Ok (ax, nodes) /\
    nth_error nodes 3 = Some a /\ nth_error nodes 4 = Some b /\
    center a = (4, 2 * (INR 6 - INR 3)) /\
    0.2 <= snd (bottom a) - snd (top b).
Proof.
  destruct (linear_chart_layout example_items "Login Process")
    as (ax & nodes & Hrun & Hlen & Hc & Hgap).
  assert (Ha : exists a, nth_error nodes 3 = Some a).
  { destruct (nth_error nodes 3) eqn:E; [eexists; reflexivity|].
    apply nth_error_None in E. rewrite Hlen in E. cbn in E. lia. }
  assert (Hb : exists b, nth_error nodes 4 = Some b).
  { destruct (nth_error nodes 4) eqn:E; [eexists; reflexivity|].
    apply nth_error_None in E. rewrite Hlen in E. cbn in E. lia. }
  destruct Ha as [a Ha]. destruct Hb as [b Hb].
  exists ax, nodes, a, b.
  split; [exact Hrun|]. split; [exact Ha|]. split; [exact Hb|]. split.
  - exact (Hc 3%nat a Ha).
  - exact (Hgap 3%nat a b Ha Hb).
Defined.

(** X7.  The arrows of a linear chart chain its nodes: for N items there
    are exactly N - 1 arrow patches (none for an empty or one-item chart),
    arrow k is the straight arrow from the bottom anchor of node k to the top
    anchor of node k + 1, and it points strictly downwards. *)
Theorem linear_chart_arrows (items : list (string * string)) (title : string) :
  exists ax nodes,
    create_linear_flowchart items title = Ok (ax, nodes) /\
    List.length (arrow_patches ax) = (List.length items - 1)%nat /\
    forall k a b,
      nth_error nodes k = Some a -> nth_error nodes (S k) = Some b ->
      nth_error (arrow_patches ax) k
      = Some (FancyArrowPatch (bottom a) (top b) "arc3,rad=0") /\
      fst (bottom a) = fst (top b) /\ snd (top b) < snd (bottom a).
Proof.
  destruct (linear_run items title)
    as (ax & nodes & Hrun & Hlen & [Hcount Hlink] & Hshape).
  exists ax, nodes. split; [exact Hrun|]. split; [now rewrite Hcount, Hlen|].
  intros k a b Ha Hb. split; [now apply Hlink|].
  destruct (Hshape k a Ha) as (wa & ha & _ & Hha & ->).
  destruct (Hshape (S k) b Hb) as (wb & hb & _ & Hhb & ->).
  cbn [top bottom fst snd]. rewrite S_INR. split; lra.
Qed.

Lemma linear_chart_arrows_witness :
  exists ax nodes a b,
    create_linear_flowchart example_items "Login Process" = Ok (ax, nodes) /\
    List.length (arrow_patches ax) = 5%nat /\
    nth_error nodes 0 = Some a /\ nth_error nodes 1 = Some b /\
    nth_error (arrow_patches ax) 0
    = Some (FancyArrowPatch (bottom a) (top b) "arc3,rad=0").
Proof.
  destruct (linear_chart_arrows example_items "Login Process")
    as (ax & nodes & Hrun & Hcount & Hlink).
  destruct (linear_run example_items "Login Process")
    as (ax2 & nodes2 & Hrun2 & Hlen & _).
  rewrite Hrun in Hrun2. injection Hrun2 as <- <-.
  assert (Ha : exists a, nth_error nodes 0 = Some a).
  { destruct (nth_error nodes 0) eqn:E; [eexists; reflexivity|].
    apply nth_error_None in E. rewrite Hlen in E. cbn in E. lia. }
  assert (Hb : exists b, nth_error nodes 1 = Some b).
  { destruct (nth_error nodes 1) eqn:E; [eexists; reflexivity|].
    apply nth_error_None in E. rewrite Hlen in E. cbn in E. lia. }
  destruct Ha as [a Ha]. destruct Hb as [b Hb].
  exists ax, nodes, a, b.
  split; [exact Hrun|]. split; [exact Hcount|].
  split; [exact Ha|]. split; [exact Hb|].
  exact (proj1 (Hlink 0%nat a b Ha Hb)).
Defined.

(** X8.  The two builders draw the same shape for the same type: a step of
    [create_flowchart] and an item of [create_linear_flowchart] with equal
    type and text get the same artists and the same anchors at the same
    position (start and end an oval, decision a diamond, io a parallelogram,
    everything else the process rectangle). *)
Theorem builders_agree_on_shapes (ax : Axes) (x y : R) (step : Step) :
  draw_item ax x y (type step) (text step) = draw_step ax x y step /\
  (str_in (type step) ["start"; "end"]%string = true ->
   draw_step ax x y step = draw_oval ax x y (text step) 2.5 1.0 None) /\
  (type step = "decision"%string ->
   draw_step ax x y step = draw_diamond ax x y (text step) 1.8 None) /\
  (type step = "io"%string ->
   draw_step ax x y step = draw_parallelogram ax x y (text step) 3.0 1.0 0.3 None) /\
  (~ In (type step) ["start"; "end"; "decision"; "io"]%string ->
   draw_step ax x y step = draw_rect ax x y (text step) 3.0 1.2 None).
Proof.
  split; [destruct step; apply draw_item_is_draw_step|].
  unfold draw_step. repeat split.
  - intros ->. reflexivity.
  - intros ->. reflexivity.
  - intros ->. reflexivity.
  - intros Hnot. cbn [In] in Hnot.
    assert (str_in (type step) ["start"; "end"]%string = false) as ->.
    { unfold str_in. cbn [existsb].
      rewrite !(proj2 (String.eqb_neq (type step) _)); [reflexivity | |];
        intros E; rewrite E in Hnot; tauto. }
    destruct (String.eqb (type step) "process"); [reflexivity|].
    rewrite !(proj2 (String.eqb_neq (type step) _)); [reflexivity | |];
      intros E; rewrite E in Hnot; tauto.
Qed.

Lemma builders_agree_on_shapes_witness :
  draw_step [] 4 2 (mkStep "end" "End" None None None None)
  = draw_oval [] 4 2 "End" 2.5 1.0 None /\
  draw_step [] 4 2 (mkStep "decision" "Valid?" None None None None)
  = draw_diamond [] 4 2 "Valid?" 1.8 None /\
  draw_step [] 4 2 (mkStep "io" "Read" None None None None)
  = draw_parallelogram [] 4 2 "Read" 3.0 1.0 0.3 None /\
  draw_step [] 4 2 (mkStep "subprocess" "Run" None None None None)
  = draw_rect [] 4 2 "Run" 3.0 1.2 None.
Proof.
  split; [|split; [|split]].
  - apply (builders_agree_on_shapes [] 4 2
             (mkStep "end" "End" None None None None)). reflexivity.
  - apply (builders_agree_on_shapes [] 4 2
             (mkStep "decision" "Valid?" None None None None)). reflexivity.
  - apply (builders_agree_on_shapes [] 4 2
             (mkStep "io" "Read" None None None None)). reflexivity.
  - apply (builders_agree_on_shapes [] 4 2
             (mkStep "subprocess" "Run" None None None None)).
    cbn. intuition discriminate.
Defined.

Lemma draw_item_two_artists (ax : Axes) (x y : R) (ty text : string) :
  List.length (fst (draw_item ax x y ty text)) = (List.length ax + 2)%nat.
Proof.
  unfold draw_item, draw_oval, draw_rect, draw_diamond, draw_parallelogram.
  repeat match goal with |- context [if ?b then _ else _] => destruct b end;
    cbn [fst]; rewrite !length_app; cbn [List.length]; lia.
Qed.

Lemma place_nodes_axes (height y_spacing x_center : R) (steps : list Step) :
  forall ax i nodes,
    let ax' := fst (place_nodes ax height y_spacing x_center i steps nodes) in
    arrow_patches ax' = arrow_patches ax /\
    List.length ax' = (List.length ax + 2 * List.length steps)%nat.
Proof.
  induction steps as [|step rest IH]; intros ax i nodes; cbn [place_nodes].
  - cbn. split; [reflexivity | lia].
  - pose proof (draw_item_no_arrow ax (node_x x_center step)
                  (node_y height y_spacing i) (type step) (text step)) as Hno.
    pose proof (draw_item_two_artists ax (node_x x_center step)
                  (node_y height y_spacing i) (type step) (text step)) as Htwo.
    rewrite (draw_item_is_draw_step _ _ _ _ _ (next step) (yes_to step)
               (no_to step) (branch step)) in Hno, Htwo.
    replace (mkStep (type step) (text step) (next step) (yes_to step)
               (no_to step) (branch step)) with step in Hno, Htwo
      by (now destruct step).
    destruct (draw_step ax _ _ step) as [ax1 node]. cbn [fst] in Hno, Htwo.
    destruct (IH ax1 (S i) (nodes ++ [node])) as [Ha Hl]. cbv zeta in *.
    rewrite Ha, Hl, Hno, Htwo. cbn [List.length]. split; [reflexivity | lia].
Qed.

Lemma draw_arrows_axes (arrows : list ArrowCall) :
  forall ax,
    let ax' := fold_left draw_arrow arrows ax in
    arrow_patches ax'
    = arrow_patches ax
      ++ map (fun a =>
                FancyArrowPatch (arrow_start a) (arrow_end a)
                  (if arrow_curved a then "arc3,rad=0.2" else "arc3,rad=0"))
             arrows /\
    List.length ax'
    = (List.length ax + List.length arrows
       + List.length (filter (fun a => negb (String.eqb (arrow_label a) ""))
                        arrows))%nat.
Proof.
  induction arrows as [|a rest IH]; intros ax; cbn [fold_left].
  - cbn. rewrite app_nil_r. split; [reflexivity | lia].
  - destruct (IH (draw_arrow ax a)) as [Hp Hl]. cbv zeta in *.
    rewrite Hp, Hl. cbn [map filter List.length]. unfold draw_arrow.
    destruct (String.eqb (arrow_label a) ""); cbn [negb List.length];
      unfold arrow_patches; rewrite ?filter_app, ?length_app;
      cbn [filter List.length app]; rewrite ?app_nil_r, <- ?app_assoc;
      cbn [app]; split; [reflexivity | lia | reflexivity | lia].
Qed.

(** X18.  The axes of a finished chart hold exactly what the loops record:
    the arrow patches are the [draw_arrow] calls in call order, curved ones
    with [rad=0.2] and straight ones with [rad=0]; besides them there are
    two artists per step (its shape and its text) and one label text per
    labelled arrow, and nothing else. *)
Theorem axes_of_finished_chart (steps : list Step) (fig : Figure) :
  create_flowchart steps = Ok fig ->
  arrow_patches (fig_axes fig)
  = map (fun a =>
           FancyArrowPatch (arrow_start a) (arrow_end a)
             (if arrow_curved a then "arc3,rad=0.2" else "arc3,rad=0"))
        (fig_arrows fig) /\
  List.length (fig_axes fig)
  = (2 * List.length steps + List.length (fig_arrows fig)
     + List.length (filter (fun a => negb (String.eqb (arrow_label a) ""))
                      (fig_arrows fig)))%nat.
Proof.
  rewrite create_flowchart_connect.
  destruct (connect (layout_nodes steps) 0 steps) as [arrows|];
    cbn [bind]; [|discriminate].
  intros H. injection H as <-. cbn [fig_axes fig_arrows].
  destruct (draw_arrows_axes arrows
              (fst (place_nodes [] (canvas_height steps) (canvas_y_spacing steps)
                      (10 / 2) 0 steps []))) as [Hp Hl].
  destruct (place_nodes_axes (canvas_height steps) (canvas_y_spacing steps)
              (10 / 2) steps [] 0%nat []) as [Hp0 Hl0].
  cbv zeta in *. rewrite Hp, Hl, Hp0, Hl0. cbn [arrow_patches filter app List.length].
  split; [reflexivity | lia].
Qed.

Lemma axes_of_finished_chart_witness :
  exists fig,
    create_flowchart example_steps = Ok fig /\
    List.length (arrow_patches (fig_axes fig)) = 5%nat /\
    List.length (fig_axes fig) = 17%nat.
Proof.
  assert (Hrun : exists fig, create_flowchart example_steps = Ok fig)
    by (eexists; reflexivity).
  destruct Hrun as [fig Hrun]. exists fig. split; [exact Hrun|].
  destruct (axes_of_finished_chart example_steps fig Hrun) as [Hp Hl].
  rewrite Hp, Hl, length_map.
  assert (Harrows : fig_arrows fig
                    = match create_flowchart example_steps with
                      | Ok f => fig_arrows f
                      | Raise _ => []
                      end) by (now rewrite Hrun).
  rewrite Harrows. split; reflexivity.
Defined.

End FlowchartMore.


(** ** Further properties of the mind-map layout *)

Module MindmapMore.
Import Mindmap MindmapProps.

Lemma norm_scaled_unit (r c s : R) :
  s * s + c * c = 1 -> norm (r * c, r * s) = Rabs r.
Proof.
  intros H. unfold norm. cbn [fst snd].
  replace (r * c * (r * c) + r * s * (r * s)) with (r² * (s * s + c * c))
    by (unfold Rsqr; ring).
  rewrite H, Rmult_1_r. apply sqrt_Rsqr_abs.
Qed.

Lemma sin_cos_unit (t : R) : sin t * sin t + cos t * cos t = 1.
Proof. exact (sin2_cos2 t). Qed.

(** X9.  [radial_layout] raises [ZeroDivisionError] for a count of zero and
    for nothing else; for a count of at least one it returns exactly [count]
    points, each at distance [|radius|] from the centre, whatever the centre,
    the radius (also zero or negative) and the start angle. *)
Theorem radial_layout_circle (center : Point) (radius start_angle : R)
    (count : nat) :
  (count = 0%nat ->
   radial_layout center radius count start_angle = Raise ZeroDivisionError) /\
  ((1 <= count)%nat ->
   exists ps,
     radial_layout center radius count start_angle = Ok ps /\
     List.length ps = count /\
     forall p, In p ps ->
       norm (fst p - fst center, snd p - snd center) = Rabs radius).
Proof.
  split.
  - intros ->. reflexivity.
  - intros Hc. rewrite (radial_layout_pos _ _ _ _ Hc). eexists.
    split; [reflexivity|]. split; [now rewrite length_map, length_seq|].
    intros p Hp. apply in_map_iff in Hp. destruct Hp as [i [<- _]].
    cbv zeta. cbn [fst snd].
    set (t := radians (start_angle + INR i * (360 / INR count))).
    replace (fst center + radius * cos t - fst center) with (radius * cos t)
      by ring.
    replace (snd center + radius * sin t - snd center) with (radius * sin t)
      by ring.
    apply norm_scaled_unit, sin_cos_unit.
Qed.

Lemma radial_layout_circle_witness :
  radial_layout (8, 6) (-4) 0 90 = Raise ZeroDivisionError /\
  exists ps,
    radial_layout (8, 6) (-4) 3 45 = Ok ps /\
    List.length ps = 3%nat /\
    forall p, In p ps -> norm (fst p - 8, snd p - 6) = Rabs (-4).
Proof.
  destruct (radial_layout_circle (8, 6) (-4) 90 0) as [Hzero _].
  destruct (radial_layout_circle (8, 6) (-4) 45 3) as [_ Hpos].
  split; [apply Hzero; reflexivity|].
  apply Hpos. lia.
Defined.




(** The direction of a branch away from the centre is a unit vector. *)
Lemma unit_direction_unit (center P : Point) :
  P <> center ->
  let D := unit_direction center P in
  fst D * fst D + snd D * snd D = 1.
Proof.
  intros Hne D. unfold D, unit_direction, norm. cbn [fst snd].
  set (dx := fst P - fst center). set (dy := snd P - snd center).
  assert (Hpos : 0 < dx * dx + dy * dy).
  { destruct (Req_dec dx 0) as [Hx | Hx].
    - destruct (Req_dec dy 0) as [Hy | Hy].
      + exfalso. apply Hne. destruct P, center. unfold dx, dy in *.
        cbn [fst snd] in *. apply f_equal2; lra.
      + nra.
    - nra. }
  set (l := sqrt (dx * dx + dy * dy)).
  assert (Hl : l * l = dx * dx + dy * dy) by (apply sqrt_sqrt; lra).
  assert (Hl0 : l <> 0).
  { intros E. rewrite E in Hl. lra. }
  replace (dx / l * (dx / l) + dy / l * (dy / l))
    with ((dx * dx + dy * dy) / (l * l)) by (field; exact Hl0).
  rewrite Hl. field. lra.
Qed.

(** X11.  The children of a branch are spread symmetrically for every
    number of children: the offsets of child j and child n - 1 - j are
    opposite, so the two positions mirror each other about the base point
    [P + 2 * D] and the base point is the midpoint of the row. *)
Theorem children_symmetric (center P : Point) (n j : nat) :
  (j < n)%nat ->
  let D := unit_direction center P in
  let p := child_position center P n j in
  let q := child_position center P n (n - 1 - j) in
  child_offset n (n - 1 - j) = - child_offset n j /\
  (fst p + fst q) / 2 = fst P + 2 * fst D /\
  (snd p + snd q) / 2 = snd P + 2 * snd D.
Proof.
  intros Hj D p q.
  assert (Hoff : child_offset n (n - 1 - j) = - child_offset n j).
  { unfold child_offset. rewrite !minus_INR by lia. cbn [INR]. lra. }
  split; [exact Hoff|].
  unfold p, q, child_position. cbn [fst snd]. fold D. rewrite Hoff.
  split; lra.
Qed.

Lemma children_symmetric_witness :
  child_offset 4 (4 - 1 - 1) = - child_offset 4 1 /\
  (fst (child_position (8, 6) (8, 10) 4 1)
   + fst (child_position (8, 6) (8, 10) 4 (4 - 1 - 1))) / 2
  = 8 + 2 * fst (unit_direction (8, 6) (8, 10)).
Proof.
  destruct (children_symmetric (8, 6) (8, 10) 4 1 ltac:(lia)) as (H1 & H2 & _).
  split; [exact H1 | exact H2].
Defined.

(** X12.  For a branch away from the centre, child j lies at distance
    [sqrt (4 + off_j^2)] from its branch, hence at least 2 away, and
    neighbouring children are exactly 1.2 apart. *)
Theorem children_distances (center P : Point) (n j : nat) :
  P <> center ->
  let p := child_position center P n j in
  let q := child_position center P n (S j) in
  let off := child_offset n j in
  norm (fst p - fst P, snd p - snd P) = sqrt (4 + off * off) /\
  2 <= norm (fst p - fst P, snd p - snd P) /\
  norm (fst q - fst p, snd q - snd p) = 1.2.
Proof.
  intros Hne p q off.
  pose proof (unit_direction_unit center P Hne) as HD. cbv zeta in HD.
  assert (Hnext : child_offset n (S j) = off + 1.2).
  { unfold off, child_offset, spread. rewrite S_INR. lra. }
  unfold p, q, child_position, norm. fold off. rewrite Hnext. cbn [fst snd].
  set (dx := fst (unit_direction center P)) in *.
  set (dy := snd (unit_direction center P)) in *.
  assert (Hdist : (fst P + dx * 2 + - dy * off - fst P)
                  * (fst P + dx * 2 + - dy * off - fst P)
                  + (snd P + dy * 2 + dx * off - snd P)
                    * (snd P + dy * 2 + dx * off - snd P)
                  = 4 + off * off).
  { replace (4 + off * off) with ((4 + off * off) * (dx * dx + dy * dy))
      by (rewrite HD; ring).
    ring. }
  rewrite Hdist. split; [reflexivity|]. split.
  - replace 2 with (sqrt (2 * 2)) at 1 by (apply sqrt_square; lra).
    apply sqrt_le_1_alt. nra.
  - replace ((fst P + dx * 2 + - dy * (off + 1.2)
              - (fst P + dx * 2 + - dy * off))
             * (fst P + dx * 2 + - dy * (off + 1.2)
                - (fst P + dx * 2 + - dy * off))
             + (snd P + dy * 2 + dx * (off + 1.2)
                - (snd P + dy * 2 + dx * off))
               * (snd P + dy * 2 + dx * (off + 1.2)
                  - (snd P + dy * 2 + dx * off)))
      with (1.2 * 1.2 * (dx * dx + dy * dy)) by ring.
    rewrite HD, Rmult_1_r. apply sqrt_square. lra.
Qed.

Lemma children_distances_witness :
  2 <= norm (fst (child_position (8, 6) (8, 10) 3 0) - 8,
             snd (child_position (8, 6) (8, 10) 3 0) - 10) /\
  norm (fst (child_position (8, 6) (8, 10) 3 1)
        - fst (child_position (8, 6) (8, 10) 3 0),
        snd (child_position (8, 6) (8, 10) 3 1)
        - snd (child_position (8, 6) (8, 10) 3 0)) = 1.2.
Proof.
  assert (Hne : (8, 10) <> ((8, 6) : Point))
    by (intros H; injection H as H; lra).
  destruct (children_distances (8, 6) (8, 10) 3 0 Hne) as (_ & H2 & H3).
  split; [exact H2 | exact H3].
Defined.

(** A finished call had at least one branch and used the positions of
    [radial_layout]. *)
Lemma create_mindmap_inv (data : MindMapData) (fig : Figure) :
  create_mindmap data = Ok fig ->
  let N := List.length (branches data) in
  let cx := canvas_width data / 2 in
  let cy := canvas_height data / 2 in
  let r := Rmin (canvas_width data) (canvas_height data) / 3 in
  (1 <= N)%nat /\
  fig_width fig = canvas_width data /\
  fig_height fig = canvas_height data /\
  fig_center fig = (cx, cy) /\
  fig_branch_positions fig
  = map (fun i =>
           let angle := radians (90 + INR i * (360 / INR N)) in
           (cx + r * cos angle, cy + r * sin angle))
        (seq 0 N).
Proof.
  intros Hrun N cx cy r.
  destruct (Nat.eq_dec N 0) as [H0 | Hpos].
  - exfalso. unfold create_mindmap in Hrun. cbv zeta in Hrun.
    fold N in Hrun. rewrite H0, radial_layout_zero in Hrun. discriminate.
  - assert (HN : (1 <= N)%nat) by lia.
    destruct (create_mindmap_Ok data _ (radial_layout_pos _ _ 90 N HN))
      as (fig' & Hrun' & HW & HH & Hc & Hp).
    rewrite Hrun in Hrun'. injection Hrun' as <-.
    repeat split; assumption.
Qed.

(** X13.  In a finished mind map every branch node is centred strictly
    inside the canvas and away from the centre topic, so the outward
    direction of every branch is defined. *)
Theorem branches_on_canvas (data : MindMapData) (fig : Figure) (p : Point) :
  create_mindmap data = Ok fig ->
  In p (fig_branch_positions fig) ->
  0 < fst p < fig_width fig /\ 0 < snd p < fig_height fig /\
  p <> fig_center fig.
Proof.
  intros Hrun Hp.
  destruct (create_mindmap_inv data fig Hrun) as (_ & -> & -> & -> & Hpos).
  rewrite Hpos in Hp. apply in_map_iff in Hp. destruct Hp as [i [<- _]].
  cbv zeta. cbn [fst snd].
  set (t := radians (90 + INR i * (360 / INR (List.length (branches data))))).
  pose proof (branch_radius_pos data) as Hr.
  set (r := Rmin (canvas_width data) (canvas_height data) / 3) in *.
  assert (HrW : 3 * r <= canvas_width data)
    by (unfold r; pose proof (Rmin_l (canvas_width data) (canvas_height data)); lra).
  assert (HrH : 3 * r <= canvas_height data)
    by (unfold r; pose proof (Rmin_r (canvas_width data) (canvas_height data)); lra).
  pose proof (COS_bound t) as [Hc1 Hc2].
  pose proof (SIN_bound t) as [Hs1 Hs2].
  assert (- r <= r * cos t <= r) by (split; nra).
  assert (- r <= r * sin t <= r) by (split; nra).
  repeat split; try lra.
  intros Heq. injection Heq as Hx Hy.
  assert (Hcos : cos t = 0) by nra.
  assert (Hsin : sin t = 0) by nra.
  pose proof (sin_cos_unit t) as Hunit. rewrite Hcos, Hsin in Hunit. lra.
Qed.

Lemma branches_on_canvas_witness :
  exists fig p,
    create_mindmap example_data = Ok fig /\
    In p (fig_branch_positions fig) /\
    0 < fst p < fig_width fig /\ p <> fig_center fig.
Proof.
  assert (Hrun : exists fig, create_mindmap example_data = Ok fig)
    by (eexists; reflexivity).
  destruct Hrun as [fig Hrun].
  assert (Hp : exists p, nth_error (fig_branch_positions fig) 2 = Some p).
  { destruct (create_mindmap_inv example_data fig Hrun) as (_ & _ & _ & _ & ->).
    eexists. reflexivity. }
  destruct Hp as [p Hp].
  assert (Hin : In p (fig_branch_positions fig))
    by (eapply nth_error_In; exact Hp).
  destruct (branches_on_canvas example_data fig p Hrun Hin) as (Hx & _ & Hne).
  exists fig, p. split; [exact Hrun|]. split; [exact Hin|].
  split; [exact Hx | exact Hne].
Defined.

Lemma create_mindmap_axes (data : MindMapData) (fig : Figure) :
  create_mindmap data = Ok fig ->
  fig_axes fig
  = fold_left (fun ax '(i, (b, pos)) => draw_branch ax (fig_center fig) i b pos)
      (enumerate (combine (branches data) (fig_branch_positions fig)))
      (draw_node [] (fst (fig_center fig)) (snd (fig_center fig)) (title data)
         COLORS_center 3.5 1.2 14 0.9)
    ++ [Text (fig_width fig / 2) (fig_height fig - 0.5)
          (match header data with Some h => h | None => ""%string end) 16].
Proof.
  unfold create_mindmap. cbv zeta.
  destruct (radial_layout _ _ _ 90) as [ps|]; cbn [bind]; [|discriminate].
  intros H. injection H as <-. reflexivity.
Qed.

Section Counting.
Variable sel : Artist -> bool.
Variables of_line of_box : nat.
Hypothesis sel_text : forall x y s f, sel (Text x y s f) = false.
Hypothesis sel_line :
  forall xs ys c w, (if sel (Line2D xs ys c w) then 1 else 0)%nat = of_line.
Hypothesis sel_box :
  forall xy w h st c a,
    (if sel (FancyBboxPatch xy w h st c a) then 1 else 0)%nat = of_box.

Let cnt (ax : Axes) : nat := List.length (filter sel ax).

Lemma cnt_app (a b : Axes) : cnt (a ++ b) = (cnt a + cnt b)%nat.
Proof. unfold cnt. now rewrite filter_app, length_app. Qed.

Lemma cnt_fold {B : Type} (g : Axes -> B -> Axes) (w : B -> nat) (l : list B) :
  (forall ax b, cnt (g ax b) = (cnt ax + w b)%nat) ->
  forall ax, cnt (fold_left g l ax) = (cnt ax + list_sum (map w l))%nat.
Proof.
  intros Hg. unfold list_sum.
  induction l as [|b l IH]; intros ax; cbn [fold_left map fold_right].
  - lia.
  - rewrite IH, Hg. lia.
Qed.

Lemma cnt_draw_node (ax : Axes) (x y : R) (text color : string)
    (width height fontsize alpha : R) :
  cnt (draw_node ax x y text color width height fontsize alpha)
  = (cnt ax + of_box)%nat.
Proof.
  unfold draw_node. rewrite !cnt_app.
  assert (Htexts : forall (l : list (nat * string)) f,
            cnt (map (fun '(i, line) => Text x (f i) line fontsize) l) = 0%nat).
  { induction l as [|[i line] l IH]; intros f; [reflexivity|].
    unfold cnt in *. cbn [map filter]. rewrite sel_text. apply IH. }
  rewrite Htexts. unfold cnt at 2. cbn [filter].
  rewrite <- (sel_box (x - width / 2, y - height / 2) width height
                "round,pad=0.05,rounding_size=0.2" color alpha).
  destruct (sel _); cbn; lia.
Qed.

Lemma cnt_draw_connector (ax : Axes) (start stop : Point) (color : string)
    (linewidth : R) :
  cnt (draw_connector ax start stop color linewidth) = (cnt ax + of_line)%nat.
Proof.
  unfold draw_connector. rewrite cnt_app. unfold cnt at 2. cbn [filter].
  rewrite <- (sel_line [fst start; fst stop] [snd start; snd stop] color linewidth).
  destruct (sel _); cbn; lia.
Qed.

Lemma enumerate_length {A : Type} (l : list A) :
  List.length (enumerate l) = List.length l.
Proof. unfold enumerate. rewrite length_combine, length_seq. lia. Qed.

Lemma list_sum_const {B : Type} (k : nat) (l : list B) :
  list_sum (map (fun _ => k) l) = (k * List.length l)%nat.
Proof.
  unfold list_sum.
  induction l as [|b l IH]; cbn [map fold_right List.length]; lia.
Qed.

Lemma cnt_draw_children (ax : Axes) (center pos : Point) (color : string)
    (kids : list string) :
  cnt (draw_children ax center pos color kids)
  = (cnt ax + (of_line + of_box) * List.length kids)%nat.
Proof.
  unfold draw_children.
  rewrite (cnt_fold _ (fun _ => (of_line + of_box)%nat)).
  - now rewrite list_sum_const, enumerate_length.
  - intros acc [j child]. rewrite cnt_draw_node, cnt_draw_connector. lia.
Qed.

Lemma cnt_draw_branch (ax : Axes) (center : Point) (i : nat) (b : Branch)
    (pos : Point) :
  cnt (draw_branch ax center i b pos)
  = (cnt ax + (of_line + of_box) * (1 + List.length (get_children b)))%nat.
Proof.
  unfold draw_branch. cbv zeta.
  destruct (get_children b) as [|kid kids] eqn:Hk.
  - rewrite cnt_draw_node, cnt_draw_connector. cbn [List.length]. lia.
  - rewrite cnt_draw_children, cnt_draw_node, cnt_draw_connector. lia.
Qed.

Lemma sum_over_zipped (f : Branch -> nat) (bs : list Branch) :
  forall (ps : list Point) (start : nat),
    List.length ps = List.length bs ->
    list_sum (map (fun '(i, (b, pos)) => f b)
                (combine (seq start (List.length (combine bs ps)))
                   (combine bs ps)))
    = list_sum (map f bs).
Proof.
  unfold list_sum.
  induction bs as [|b bs IH]; intros ps start Hlen.
  - reflexivity.
  - destruct ps as [|p ps]; [discriminate|].
    cbn [combine List.length seq map fold_right].
    rewrite IH by (cbn in Hlen; lia). reflexivity.
Qed.

Lemma cnt_finished (data : MindMapData) (fig : Figure) :
  create_mindmap data = Ok fig ->
  cnt (fig_axes fig)
  = (of_box
     + (of_line + of_box)
       * (List.length (branches data)
          + list_sum (map (fun b => List.length (get_children b))
                        (branches data))))%nat.
Proof.
  intros Hrun. rewrite (create_mindmap_axes data fig Hrun), cnt_app.
  unfold cnt at 2. cbn [filter]. rewrite sel_text. cbn [List.length].
  rewrite (cnt_fold _
             (fun '(i, (b, pos)) =>
                ((of_line + of_box) * (1 + List.length (get_children b)))%nat)).
  2:{ intros ax [i [b pos]]. apply cnt_draw_branch. }
  rewrite cnt_draw_node. unfold cnt at 1. cbn [filter List.length].
  unfold enumerate.
  rewrite (sum_over_zipped
             (fun b => ((of_line + of_box) * (1 + List.length (get_children b)))%nat)).
  2:{ destruct (create_mindmap_inv data fig Hrun) as (_ & _ & _ & _ & ->).
      now rewrite length_map, length_seq. }
  unfold list_sum.
  induction (branches data) as [|b bs IH]; cbn [map fold_right List.length]; lia.
Qed.
End Counting.

(** X14.  A finished mind map has exactly one connector line per branch
    and per child, and exactly one node box for the centre topic, per branch
    and per child; nothing else is drawn but text. *)
Theorem connectors_and_boxes (data : MindMapData) (fig : Figure) :
  create_mindmap data = Ok fig ->
  let N := List.length (branches data) in
  let kids := list_sum (map (fun b => List.length (get_children b))
                          (branches data)) in
  List.length (lines_of (fig_axes fig)) = (N + kids)%nat /\
  List.length (boxes_of (fig_axes fig)) = (1 + N + kids)%nat /\
  forall a, In a (fig_axes fig) ->
    In a (lines_of (fig_axes fig)) \/ In a (boxes_of (fig_axes fig)) \/
    exists x y s f, a = Text x y s f.
Proof.
  intros Hrun N kids. split; [|split].
  - unfold lines_of.
    rewrite (cnt_finished _ 1%nat 0%nat) with (data := data) by (reflexivity || exact Hrun).
    fold N kids. lia.
  - unfold boxes_of.
    rewrite (cnt_finished _ 0%nat 1%nat) with (data := data) by (reflexivity || exact Hrun).
    fold N kids. lia.
  - intros a Ha. unfold lines_of, boxes_of.
    destruct a as [xy w h st c al | x y s f | xs ys c w].
    + right. left. apply filter_In. split; [exact Ha | reflexivity].
    + right. right. now exists x, y, s, f.
    + left. apply filter_In. split; [exact Ha | reflexivity].
Qed.

Lemma connectors_and_boxes_witness :
  exists fig,
    create_mindmap example_data = Ok fig /\
    List.length (lines_of (fig_axes fig)) = 20%nat /\
    List.length (boxes_of (fig_axes fig)) = 21%nat.
Proof.
  assert (Hrun : exists fig, create_mindmap example_data = Ok fig)
    by (eexists; reflexivity).
  destruct Hrun as [fig Hrun]. exists fig.
  destruct (connectors_and_boxes example_data fig Hrun) as (Hl & Hb & _).
  split; [exact Hrun|]. split; [exact Hl | exact Hb].
Defined.

Lemma split_lines_nonempty (s : string) : split_lines s <> [].
Proof.
  destruct s as [|c rest]; cbn [split_lines]; [discriminate|].
  destruct (Ascii.eqb c _); [discriminate|].
  destruct (split_lines rest); discriminate.
Qed.

Lemma split_lines_pieces (s : string) :
  String.concat (String (Ascii.ascii_of_nat 10) EmptyString) (split_lines s) = s /\
  List.length (split_lines s) = S (count_newlines s) /\
  forall piece, In piece (split_lines s) -> count_newlines piece = 0%nat.
Proof.
  induction s as [|c rest (IHjoin & IHlen & IHclean)].
  - cbn. repeat split. intros piece [<- | []]. reflexivity.
  - cbn [split_lines count_newlines].
    pose proof (split_lines_nonempty rest) as Hne.
    destruct (Ascii.eqb c (Ascii.ascii_of_nat 10)) eqn:Hc.
    + apply Ascii.eqb_eq in Hc. subst c. split; [|split].
      * destruct (split_lines rest) as [|piece pieces] eqn:E; [contradiction|].
        rewrite <- IHjoin. reflexivity.
      * cbn [List.length]. now rewrite IHlen.
      * intros piece [<- | Hin]; [reflexivity | now apply IHclean].
    + destruct (split_lines rest) as [|piece pieces] eqn:E; [contradiction|].
      split; [|split].
      * rewrite <- IHjoin. destruct pieces; reflexivity.
      * cbn [List.length] in *. exact IHlen.
      * intros p [<- | Hin].
        -- cbn [count_newlines]. rewrite Hc. apply IHclean. now left.
        -- apply IHclean. now right.
Qed.

(** X15.  Splitting a text at its newlines loses nothing: joining the
    pieces with newlines gives the text back, there is one more piece than
    there are newlines (so never no piece), and no piece contains a
    newline. *)
Theorem split_lines_join (s : string) :
  String.concat (String (Ascii.ascii_of_nat 10) EmptyString) (split_lines s) = s /\
  List.length (split_lines s) = S (count_newlines s) /\
  forall piece, In piece (split_lines s) -> count_newlines piece = 0%nat.
Proof.
  destruct (split_lines_pieces s) as (Hjoin & Hlen & Hclean).
  split; [exact Hjoin|]. split; [exact Hlen | exact Hclean].
Qed.

Lemma split_lines_join_witness :
  String.concat (String (Ascii.ascii_of_nat 10) EmptyString)
    (split_lines (title example_data)) = title example_data /\
  List.length (split_lines (title example_data)) = 2%nat /\
  count_newlines "Mechanics" = 0%nat.
Proof.
  destruct (split_lines_join (title example_data)) as (Hjoin & Hlen & Hclean).
  split; [exact Hjoin|]. split; [exact Hlen|].
  apply Hclean. right. left. reflexivity.
Defined.

Lemma enumerate_nth {A : Type} (l : list A) (i : nat) (x : A) :
  nth_error l i = Some x -> nth_error (enumerate l) i = Some (i, x).
Proof.
  unfold enumerate.
  assert (H : forall start n i,
            n = List.length l ->
            nth_error l i = Some x ->
            nth_error (combine (seq start n) l) i = Some ((start + i)%nat, x)).
  { clear i. induction l as [|a l IH]; intros start n i Hn Hi.
    - destruct i; discriminate.
    - subst n. cbn [List.length seq combine]. destruct i as [|i].
      + cbn in Hi. injection Hi as ->. cbn. now rewrite Nat.add_0_r.
      + cbn [nth_error] in *. rewrite (IH (S start) _ i eq_refl Hi).
        f_equal. f_equal. lia. }
  intros Hi. now rewrite (H 0%nat _ i eq_refl Hi).
Qed.

(** X16.  [draw_node] appends one rounded box whose centre is [(x, y)] and
    one text per line of the label, nothing else; the block of lines is
    centred on [y]: with n lines, line i is at height
    [y + ((n - 1) / 2 - i) * 0.25], so a one-line label sits at [y] itself
    and lines i and n - 1 - i are mirror images. *)
Theorem draw_node_text_block (ax : Axes) (x y : R) (text color : string)
    (width height fontsize alpha : R) :
  let lines := split_lines text in
  let n := List.length lines in
  let line_y (i : nat) := y + ((INR n - 1) / 2 - INR i) * 0.25 in
  exists texts,
    draw_node ax x y text color width height fontsize alpha
    = ax ++ FancyBboxPatch (x - width / 2, y - height / 2) width height
              "round,pad=0.05,rounding_size=0.2" color alpha :: texts /\
    List.length texts = S (count_newlines text) /\
    (forall i line, nth_error lines i = Some line ->
       nth_error texts i = Some (Text x (line_y i) line fontsize) /\
       line_y i + line_y (n - 1 - i)%nat = 2 * y) /\
    (count_newlines text = 0%nat -> texts = [Text x y text fontsize]).
Proof.
  intros lines n line_y.
  destruct (split_lines_pieces text) as (Hjoin & Hlen & _).
  fold lines in Hjoin, Hlen.
  set (texts := map (fun '(i, line) =>
                       Text x (y + (INR n - 1) * 0.25 / 2 - INR i * 0.25) line fontsize)
                    (enumerate lines)).
  assert (Hnth : forall i line, nth_error lines i = Some line ->
            nth_error texts i = Some (Text x (line_y i) line fontsize)).
  { intros i line Hi. unfold texts.
    rewrite nth_error_map, (enumerate_nth _ _ _ Hi). cbn [option_map].
    f_equal. f_equal. unfold line_y. lra. }
  exists texts. split; [|split; [|split]].
  - unfold draw_node. fold lines. fold n. fold texts.
    now rewrite <- app_assoc.
  - unfold texts. rewrite length_map, enumerate_length. exact Hlen.
  - intros i line Hi. split; [now apply Hnth|].
    assert (Hin : (i < n)%nat) by (apply nth_error_Some; congruence).
    unfold line_y. rewrite !minus_INR by lia. cbn [INR]. lra.
  - intros H0. rewrite H0 in Hlen.
    destruct lines as [|l0 [|l1 ls]] eqn:E; try discriminate.
    cbn [String.concat] in Hjoin. subst l0.
    unfold texts, enumerate. cbn [List.length seq combine map].
    f_equal. f_equal. unfold n. cbn [List.length INR]. lra.
Qed.

Lemma draw_node_text_block_witness :
  exists texts,
    draw_node [] 8 6 (title example_data) COLORS_center 3.5 1.2 14 0.9
    = [] ++ FancyBboxPatch (8 - 3.5 / 2, 6 - 1.2 / 2) 3.5 1.2
              "round,pad=0.05,rounding_size=0.2" COLORS_center 0.9 :: texts /\
    List.length texts = 2%nat /\
    nth_error texts 1
    = Some (Text 8 (6 + ((INR 2 - 1) / 2 - INR 1) * 0.25) "Mechanics" 14) /\
    draw_node [] 8 6 "Force" COLORS_center 3.5 1.2 14 0.9
    = [FancyBboxPatch (8 - 3.5 / 2, 6 - 1.2 / 2) 3.5 1.2
         "round,pad=0.05,rounding_size=0.2" COLORS_center 0.9;
       Text 8 6 "Force" 14].
Proof.
  destruct (draw_node_text_block [] 8 6 (title example_data) COLORS_center
              3.5 1.2 14 0.9) as (texts & Hdraw & Hlen & Hnth & _).
  destruct (draw_node_text_block [] 8 6 "Force" COLORS_center
              3.5 1.2 14 0.9) as (one & Hdraw1 & _ & _ & Hone).
  exists texts. split; [exact Hdraw|]. split; [exact Hlen|]. split.
  - exact (proj1 (Hnth 1%nat "Mechanics"%string eq_refl)).
  - rewrite Hdraw1, (Hone eq_refl). reflexivity.
Defined.

Lemma palette_values (i : nat) :
  palette i = palette (i mod 5) /\
  In (palette i) [COLORS_branch1; COLORS_branch2; COLORS_branch3;
                  COLORS_branch4; COLORS_branch5].
Proof.
  unfold palette. rewrite Nat.Div0.mod_mod. split; [reflexivity|].
  assert (H : (i mod 5 < 5)%nat) by (apply Nat.mod_upper_bound; lia).
  destruct (i mod 5)%nat as [|[|[|[|[|k]]]]]; cbn; try tauto. lia.
Qed.

Lemma draw_node_colours (x y : R) (text col : string)
    (width height fontsize alpha : R) (a : Artist) :
  In a (draw_node [] x y text col width height fontsize alpha) ->
  colour_of a = None \/ colour_of a = Some col.
Proof.
  unfold draw_node. cbn [app]. intros [<- | Hin]; [now right|].
  apply in_map_iff in Hin. destruct Hin as [[i line] [<- _]]. now left.
Qed.

(** X17.  A branch is drawn in one colour throughout: its connector to the
    centre, its node, and the connector and node of each of its children all
    carry the colour the branch declares or, when it declares none, the
    palette entry of the branch index modulo 5. *)
Theorem branch_single_colour (ax : Axes) (center : Point) (i : nat)
    (b : Branch) (pos : Point) :
  exists col drawn,
    draw_branch ax center i b pos = ax ++ drawn /\
    (forall c, color b = Some c -> col = c) /\
    (color b = None ->
     col = palette (i mod 5) /\
     In col [COLORS_branch1; COLORS_branch2; COLORS_branch3;
             COLORS_branch4; COLORS_branch5]) /\
    forall a, In a drawn -> colour_of a = None \/ colour_of a = Some col.
Proof.
  set (col := match color b with Some c => c | None => palette i end).
  set (head := draw_connector [] center pos col 3
               ++ draw_node [] (fst pos) (snd pos) (name b) col 2.8 0.8 11 0.9).
  assert (Hhead : forall a, In a head -> colour_of a = None \/ colour_of a = Some col).
  { intros a Ha. unfold head in Ha. apply in_app_or in Ha.
    destruct Ha as [[<- | []] | Ha]; [now right|].
    eapply draw_node_colours. exact Ha. }
  assert (Hcol1 : forall c, color b = Some c -> col = c)
    by (intros c Hc; unfold col; now rewrite Hc).
  assert (Hcol2 : color b = None ->
            col = palette (i mod 5) /\
            In col [COLORS_branch1; COLORS_branch2; COLORS_branch3;
                    COLORS_branch4; COLORS_branch5]).
  { intros Hc. unfold col. rewrite Hc. apply palette_values. }
  unfold draw_branch. cbv zeta. fold col.
  destruct (get_children b) as [|kid kids] eqn:Hk.
  - exists col, head. split; [|split; [exact Hcol1 | split; [exact Hcol2 | exact Hhead]]].
    rewrite draw_node_app. unfold draw_connector, head. cbn [app].
    now rewrite <- app_assoc.
  - rewrite draw_children_artists.
    eexists col, (head ++ _). split; [|split; [exact Hcol1 | split; [exact Hcol2|]]].
    + rewrite draw_node_app. unfold draw_connector at 1. unfold head.
      unfold draw_connector at 2. cbn [app].
      rewrite <- !app_assoc. cbn [app]. reflexivity.
    + intros a Ha. apply in_app_or in Ha. destruct Ha as [Ha | Ha];
        [now apply Hhead|].
      apply in_flat_map in Ha. destruct Ha as [[j child] [_ Ha]].
      cbv zeta in Ha. apply in_app_or in Ha.
      destruct Ha as [[<- | []] | Ha]; [now right|].
      eapply draw_node_colours. exact Ha.
Qed.

Lemma branch_single_colour_witness :
  exists col drawn,
    draw_branch [] (8, 6) 7 (mkBranch "Waves" None (Some ["Sound"%string])) (8, 10)
    = [] ++ drawn /\
    col = palette (7 mod 5) /\
    forall a, In a drawn -> colour_of a = None \/ colour_of a = Some col.
Proof.
  destruct (branch_single_colour [] (8, 6) 7
              (mkBranch "Waves" None (Some ["Sound"%string])) (8, 10))
    as (col & drawn & Hdraw & _ & Hnone & Hall).
  exists col, drawn. split; [exact Hdraw|]. split; [|exact Hall].
  exact (proj1 (Hnone eq_refl)).
Defined.

End MindmapMore.


(** ** Placement of the children of a branch *)

Module MindmapChildren.
Import Mindmap MindmapProps MindmapMore.

Lemma nth_error_zip {A B : Type} (l1 : list A) (l2 : list B) (i : nat)
    (a : A) (b : B) :
  nth_error l1 i = Some a -> nth_error l2 i = Some b ->
  nth_error (combine l1 l2) i = Some (a, b).
Proof.
  revert l2 i. induction l1 as [|x l1 IH]; intros l2 i H1 H2.
  - destruct i; discriminate.
  - destruct l2 as [|y l2]; [destruct i; discriminate|].
    destruct i as [|i]; cbn in *.
    + congruence.
    + now apply IH.
Qed.

Lemma flat_map_around {A B : Type} (h : A -> list B) (l : list A) (i : nat)
    (x : A) :
  nth_error l i = Some x ->
  exists before after, flat_map h l = before ++ h x ++ after.
Proof.
  intros H. apply nth_error_split in H. destruct H as (l1 & l2 & -> & _).
  exists (flat_map h l1), (flat_map h l2).
  now rewrite flat_map_app.
Qed.

Lemma draw_branch_app (ax : Axes) (center : Point) (i : nat) (b : Branch)
    (pos : Point) :
  draw_branch ax center i b pos = ax ++ draw_branch [] center i b pos.
Proof.
  unfold draw_branch. cbv zeta.
  destruct (get_children b) as [|kid kids].
  - rewrite draw_node_app. unfold draw_connector. cbn [app].
    now rewrite <- app_assoc.
  - rewrite draw_children_artists, (draw_children_artists (draw_node _ _ _ _ _ _ _ _ _)).
    rewrite draw_node_app. unfold draw_connector. cbn [app].
    now rewrite <- !app_assoc.
Qed.

(** The artists of branch [i] of a finished mind map sit on its axes. *)
Lemma branch_artists_on_axes (data : MindMapData) (fig : Figure) (i : nat)
    (b : Branch) (P : Point) :
  create_mindmap data = Ok fig ->
  nth_error (branches data) i = Some b ->
  nth_error (fig_branch_positions fig) i = Some P ->
  exists before after,
    fig_axes fig = before ++ draw_branch [] (fig_center fig) i b P ++ after.
Proof.
  intros Hrun Hb HP. rewrite (create_mindmap_axes data fig Hrun).
  rewrite (fold_left_appends _
             (fun '(i, (b, pos)) => draw_branch [] (fig_center fig) i b pos)).
  2:{ intros acc [k [b' pos]]. apply draw_branch_app. }
  pose proof (enumerate_nth _ _ _ (nth_error_zip _ _ _ _ _ Hb HP)) as Hnth.
  destruct (flat_map_around
              (fun '(i, (b, pos)) => draw_branch [] (fig_center fig) i b pos)
              _ _ _ Hnth) as (pre & post & ->).
  match goal with
  | |- exists _ _, (?a ++ pre ++ _ ++ post) ++ ?t = _ =>
      exists (a ++ pre), (post ++ t)
  end.
  now rewrite <- !app_assoc.
Qed.

(** The artists of child [j] among those of its branch: a connector from
    the branch to [child_position] and a node centred there. *)
Lemma child_artists_in_branch (center P : Point) (i j : nat) (b : Branch)
    (child : string) :
  nth_error (get_children b) j = Some child ->
  let colour := match color b with Some c => c | None => palette i end in
  let cp := child_position center P (List.length (get_children b)) j in
  exists before after,
    draw_branch [] center i b P
    = before
      ++ (draw_connector [] P cp colour 1.5
          ++ draw_node [] (fst cp) (snd cp) child colour 2.2 0.6 9 0.85)
      ++ after.
Proof.
  intros Hj colour cp. unfold draw_branch. cbv zeta. fold colour.
  destruct (get_children b) as [|kid kids] eqn:Hk; [destruct j; discriminate|].
  rewrite draw_children_artists.
  destruct (flat_map_around
              (fun '(j, child) =>
                 let child_pos :=
                   child_position center P (List.length (kid :: kids)) j in
                 draw_connector [] P child_pos colour 1.5
                 ++ draw_node [] (fst child_pos) (snd child_pos) child colour
                      2.2 0.6 9 0.85)
              _ _ _ (enumerate_nth _ _ _ Hj)) as (pre & post & ->).
  match goal with
  | |- exists _ _, ?a ++ pre ++ _ ++ post = _ => exists (a ++ pre), post
  end.
  cbv zeta. fold cp. now rewrite <- !app_assoc.
Qed.

(** A branch position of a finished mind map: on the circle, at distance
    the positive radius from the centre. *)
Lemma branch_position_radius (data : MindMapData) (fig : Figure) (i : nat)
    (P : Point) :
  create_mindmap data = Ok fig ->
  nth_error (fig_branch_positions fig) i = Some P ->
  let center := fig_center fig in
  0 < norm (fst P - fst center, snd P - snd center) /\ P <> center.
Proof.
  intros Hrun HP center.
  destruct (create_mindmap_inv data fig Hrun) as (HN & _ & _ & Hc & Hpos).
  unfold center. rewrite Hc. rewrite Hpos in HP.
  rewrite nth_error_map, nth_error_seq in HP.
  destruct (i <? List.length (branches data))%nat; [|discriminate].
  cbn [option_map Nat.add] in HP. injection HP as <-.
  cbn [fst snd].
  pose proof (branch_radius_pos data) as Hr.
  rewrite norm_on_circle by lra.
  split; [exact Hr|].
  intros Heq. injection Heq as Hx Hy.
  set (r := Rmin (canvas_width data) (canvas_height data) / 3) in *.
  set (t := radians (90 + INR i * (360 / INR (List.length (branches data))))) in *.
  assert (Hcos : cos t = 0) by nra.
  assert (Hsin : sin t = 0) by nra.
  pose proof (sin2_cos2 t) as Hunit. unfold Rsqr in Hunit.
  rewrite Hcos, Hsin in Hunit. lra.
Qed.

(** C6.  In a finished mind map, take branch [i] at position [P] with its
    [count] children, and let [D = (P - center) / |P - center|], a unit
    vector since the branch is away from the centre.  Then for every child j
    the axes carry, side by side, the connector from [P] to the point
    [P + 2*D + off_j * (-D.y, D.x)] with [off_j = (j - (count - 1)/2) * 1.2]
    and the node of that child centred on this point.  An only child sits
    exactly at [P + 2*D]; of three children the middle one has offset 0 and
    the outer two have opposite offsets. *)
Theorem child_placement (data : MindMapData) (fig : Figure) (i : nat)
    (b : Branch) (P : Point) :
  create_mindmap data = Ok fig ->
  nth_error (branches data) i = Some b ->
  nth_error (fig_branch_positions fig) i = Some P ->
  let center := fig_center fig in
  let d := (fst P - fst center, snd P - snd center) in
  let length_d := sqrt (fst d * fst d + snd d * snd d) in
  let D := (fst d / length_d, snd d / length_d) in
  let base := (fst P + 2 * fst D, snd P + 2 * snd D) in
  let count := List.length (get_children b) in
  let offset (j : nat) := (INR j - (INR count - 1) / 2) * 1.2 in
  let place (j : nat) :=
    (fst base + - snd D * offset j, snd base + fst D * offset j) in
  let colour := match color b with Some c => c | None => palette i end in
  0 < length_d /\
  fst D * fst D + snd D * snd D = 1 /\
  (forall j child,
     nth_error (get_children b) j = Some child ->
     (exists before after,
        fig_axes fig
        = before
          ++ (draw_connector [] P (place j) colour 1.5
              ++ draw_node [] (fst (place j)) (snd (place j)) child colour
                   2.2 0.6 9 0.85)
          ++ after) /\
     In (Line2D [fst P; fst (place j)] [snd P; snd (place j)] colour 1.5)
        (fig_axes fig) /\
     In (FancyBboxPatch (fst (place j) - 2.2 / 2, snd (place j) - 0.6 / 2)
           2.2 0.6 "round,pad=0.05,rounding_size=0.2" colour 0.85)
        (fig_axes fig)) /\
  (count = 1%nat -> place 0%nat = base) /\
  (count = 3%nat -> offset 1%nat = 0 /\ offset 0%nat = - offset 2%nat).
Proof.
  intros Hrun Hb HP center d length_d D base count offset place colour.
  destruct (branch_position_radius data fig i P Hrun HP) as [Hlen Hne].
  fold center in Hlen, Hne.
  assert (Hplace : forall j,
            child_position center P count j = place j).
  { intros j. unfold child_position, child_offset, spread, unit_direction, norm,
      place, offset, base, D, length_d, d.
    cbn [fst snd]. apply f_equal2; ring. }
  split; [exact Hlen|]. split; [exact (unit_direction_unit center P Hne)|].
  split; [|split].
  - intros j child Hj.
    assert (Hax : exists before after,
              fig_axes fig
              = before
                ++ (draw_connector [] P (place j) colour 1.5
                    ++ draw_node [] (fst (place j)) (snd (place j)) child colour
                         2.2 0.6 9 0.85)
                ++ after).
    { destruct (branch_artists_on_axes data fig i b P Hrun Hb HP)
        as (pre & post & ->).
      destruct (child_artists_in_branch center P i j b child Hj)
        as (pre' & post' & Hbr).
      cbv zeta in Hbr. fold count colour in Hbr. rewrite Hplace in Hbr.
      fold center. rewrite Hbr.
      exists (pre ++ pre'), (post' ++ post). now rewrite <- !app_assoc. }
    split; [exact Hax|].
    destruct Hax as (before & after & ->).
    split; apply in_or_app; right; apply in_or_app; left.
    + apply in_or_app. left. now left.
    + apply in_or_app. right. unfold draw_node. cbn [app]. now left.
  - intros H1. unfold place, offset, base. rewrite H1. cbn [INR fst snd].
    replace ((0 - (1 - 1) / 2) * 1.2) with 0 by lra.
    apply f_equal2; ring.
  - intros H3. unfold offset. rewrite H3. cbn [INR]. split; lra.
Qed.

Lemma child_placement_witness :
  exists fig P before after,
    create_mindmap example_data = Ok fig /\
    nth_error (fig_branch_positions fig) 0 = Some P /\
    let D := unit_direction (fig_center fig) P in
    let q := (fst P + 2 * fst D + - snd D * ((INR 1 - (INR 3 - 1) / 2) * 1.2),
              snd P + 2 * snd D + fst D * ((INR 1 - (INR 3 - 1) / 2) * 1.2)) in
    fig_axes fig
    = before
      ++ (draw_connector [] P q "#3498DB" 1.5
          ++ draw_node [] (fst q) (snd q) "Velocity" "#3498DB" 2.2 0.6 9 0.85)
      ++ after.
Proof.
  assert (Hrun : exists fig, create_mindmap example_data = Ok fig)
    by (eexists; reflexivity).
  destruct Hrun as [fig Hrun].
  assert (HP : exists P, nth_error (fig_branch_positions fig) 0 = Some P).
  { destruct (create_mindmap_inv example_data fig Hrun) as (_ & _ & _ & _ & ->).
    eexists. reflexivity. }
  destruct HP as [P HP].
  destruct (child_placement example_data fig 0
              (mkBranch "Kinematics" (Some "#3498DB"%string)
                 (Some ["Position"; "Velocity"; "Acceleration"]%string))
              P Hrun eq_refl HP) as (_ & _ & Hkids & _).
  destruct (Hkids 1%nat "Velocity"%string eq_refl)
    as ((before & after & Hax) & _).
  exists fig, P, before, after.
  split; [exact Hrun|]. split; [exact HP|]. exact Hax.
Defined.

End MindmapChildren.
